(** * Order service (services/order-service/index.js)

    A shallow embedding of the Express handlers of the order service and of
    the JavaScript values they touch: the JSON request body, the module-level
    [orders] object used as a map from order id to order record, the
    awaited [axios.get] calls to the user and inventory services, and
    [Date.now()].

    The handlers are written in a small monad that threads the process state
    (the [orders] object and the outside world), can throw, and logs every
    URL passed to [axios.get], in call order.

    The handlers of the inventory service
    (services/inventory-service/main.go), which the product checks are
    addressed to, are embedded as functions of the inventory map. *)

From Stdlib Require Import ZArith List String Ascii Bool Lia.
From Stdlib Require Import DecimalString DecimalPos DecimalZ.
From Stdlib Require Import Permutation PrimFloat.
Import ListNotations.
Local Open Scope string_scope.
Set Warnings "-register-all".
Set Warnings "-inexact-float".

(* ===================================================================== *)
(** ** JavaScript values *)
(* ===================================================================== *)

(** What [express.json()] can put in [req.body] and below it: the values
    [JSON.parse] builds, and [undefined] for a property that is not there.
    [VNum n] is an integer-valued number (|n| < 2^53); [VObj] lists the own
    properties of an object, each key once. *)
Inductive value : Type :=
| VUndefined
| VNull
| VBool (b : bool)
| VNum (n : Z)
| VStr (s : string)
| VArr (elems : list value)
| VObj (props : list (string * value)).

(** The [TypeError]s the language itself raises on the paths of the creation
    handler. *)
Inductive type_error : Type :=
| Destructure (v : value) (p : string)    (* const { p } = v, v null or undefined *)
| ReadOfNullish (v : value) (p : string)  (* v.p, v null or undefined *)
| NotIterable (v : value)                 (* for (const item of v) *)
| NotPrimitive (v : value).               (* `${v}`, v an object with no usable toString *)

(** A caught value: the rejection of an [axios.get] promise, an [Error]
    with its [message], or a [TypeError] of the language. *)
Inductive error : Type :=
| RequestError (message : string)
| TypeError (t : type_error).

Fixpoint assoc {A : Type} (k : string) (l : list (string * A)) : option A :=
  match l with
  | [] => None
  | (k', a) :: r => if String.eqb k' k then Some a else assoc k r
  end.

(** [v[k]] for [v] not null or undefined and [k] one of the three names the
    handlers read: [userId], [items], [productId]. No built-in prototype
    defines any of them, so the read is the own property or [undefined]. *)
Definition get_field (v : value) (k : string) : value :=
  match v with
  | VObj props => match assoc k props with Some x => x | None => VUndefined end
  | _ => VUndefined
  end.

(** [v.k]: a [TypeError] on [null] and [undefined]. *)
Definition member (v : value) (k : string) : error + value :=
  match v with
  | VUndefined | VNull => inl (TypeError (ReadOfNullish v k))
  | _ => inr (get_field v k)
  end.

(** [Number.prototype.toString] on an integer: decimal digits, [-] in front
    of a negative one. *)
Definition Number_toString (n : Z) : string :=
  NilZero.string_of_int (Z.to_int n).

(** [ToString], as a template literal applies it. An array joins its
    elements with commas, [null] and [undefined] elements as the empty
    string. A parsed object inherits [Object.prototype.toString] unless an
    own property named [toString] shadows it; that property is never
    callable, [valueOf] then yields no primitive, and the conversion throws
    ([None]). *)
Fixpoint ToString (v : value) : option string :=
  match v with
  | VUndefined => Some "undefined"
  | VNull => Some "null"
  | VBool true => Some "true"
  | VBool false => Some "false"
  | VNum n => Some (Number_toString n)
  | VStr s => Some s
  | VArr elems =>
      (fix join (l : list value) : option string :=
         match l with
         | [] => Some ""
         | x :: r =>
             let elt := match x with
                        | VUndefined | VNull => Some ""
                        | _ => ToString x
                        end in
             match r with
             | [] => elt
             | _ :: _ =>
                 match elt, join r with
                 | Some a, Some b => Some (a ++ "," ++ b)
                 | _, _ => None
                 end
             end
         end) elems
  | VObj props =>
      match assoc "toString" props with
      | Some _ => None
      | None => Some "[object Object]"
      end
  end.

(** The values [for ... of] accepts: an array yields its elements, a string
    its characters, one one-character string each. *)
Definition iterate (v : value) : option (list value) :=
  match v with
  | VArr elems => Some elems
  | VStr s => Some (map (fun c => VStr (String c "")) (list_ascii_of_string s))
  | _ => None
  end.

(* ===================================================================== *)
(** ** Orders and the [orders] object *)
(* ===================================================================== *)

(** [{ id: orderId, userId, items, status: 'pending' }] *)
Record order : Type := Order {
  id : string;
  userId : value;
  items : value;
  status : string
}.

(** [const orders = {}]: the own properties, in creation order. *)
Definition store : Type := list (string * order).

(** The properties every object literal inherits from [Object.prototype]. *)
Definition Object_prototype : list string :=
  [ "constructor"; "__defineGetter__"; "__defineSetter__"; "hasOwnProperty";
    "__lookupGetter__"; "__lookupSetter__"; "isPrototypeOf";
    "propertyIsEnumerable"; "toString"; "valueOf"; "__proto__";
    "toLocaleString" ].

Definition mem_string (k : string) (l : list string) : bool :=
  existsb (String.eqb k) l.

(** What a read [orders[k]] evaluates to. *)
Inductive js_ref : Type :=
| Ref (o : order)          (* an own property: the stored order *)
| Builtin (name : string)  (* inherited: a member of Object.prototype *)
| Undefined.

(** [orders[k]]: the own property, else the prototype's. *)
Definition obj_get (orders : store) (k : string) : js_ref :=
  match assoc k orders with
  | Some o => Ref o
  | None => if mem_string k Object_prototype then Builtin k else Undefined
  end.

(** [orders[k] = o], for [k] other than [__proto__] (see
    [Number_toString_not_inherited]: an order id never is): an existing
    property keeps its place and takes the new value, a new one goes last. *)
Fixpoint obj_set (orders : store) (k : string) (o : order) : store :=
  match orders with
  | [] => [(k, o)]
  | (k', o') :: r =>
      if String.eqb k' k then (k, o) :: r else (k', o') :: obj_set r k o
  end.

(** An array index: the canonical decimal form of an integer from 0 to
    2^32 - 2. *)
Definition array_index (k : string) : option N :=
  match NilZero.uint_of_string k with
  | Some d =>
      let n := N.of_uint d in
      if (n <=? 4294967294)%N && String.eqb (Number_toString (Z.of_N n)) k
      then Some n else None
  | None => None
  end.

Fixpoint insert_by_index (n : N) (o : order) (l : list (N * order))
  : list (N * order) :=
  match l with
  | [] => [(n, o)]
  | (m, p) :: r =>
      if (n <=? m)%N then (n, o) :: l else (m, p) :: insert_by_index n o r
  end.

Fixpoint index_properties (orders : store) : list (N * order) :=
  match orders with
  | [] => []
  | (k, o) :: r =>
      match array_index k with
      | Some n => insert_by_index n o (index_properties r)
      | None => index_properties r
      end
  end.

Fixpoint named_properties (orders : store) : list order :=
  match orders with
  | [] => []
  | (k, o) :: r =>
      match array_index k with
      | Some _ => named_properties r
      | None => o :: named_properties r
      end
  end.

(** [Object.values(orders)]: array-index keys first, in ascending numeric
    order, then the other keys in creation order. *)
Definition Object_values (orders : store) : list order :=
  map snd (index_properties orders) ++ named_properties orders.

(* ===================================================================== *)
(** ** Requests and responses *)
(* ===================================================================== *)

(** The argument of [res.json]. *)
Inductive payload : Type :=
| OfHealth                    (* { status: 'healthy', service: 'order-service' } *)
| OfOrders (l : list order)   (* { orders: [...] } *)
| OfOrder (o : order)         (* an order record *)
| OfBuiltin (name : string)   (* a member of Object.prototype *)
| OfError (message : string). (* { error: message } *)

(** [res.status(code).json(payload)]; [res.json] alone answers 200. *)
Record response : Type := respond {
  code : nat;
  body : payload
}.

(** The routes of the application. *)
Inductive request : Type :=
| GET_health
| GET_orders
| GET_order (id : string)     (* req.params.id *)
| POST_orders (body : value). (* req.body *)

(** A line item and a creation request as the callers of the service and
    its tests send them: [{ userId, items: [{ productId, quantity }, ...] }]. *)
Record line_item : Type := LineItem {
  productId : string;
  quantity : Z
}.

Definition item_value (i : line_item) : value :=
  VObj [("productId", VStr (productId i)); ("quantity", VNum (quantity i))].

Definition request_body (user : string) (l : list line_item) : value :=
  VObj [("userId", VStr user); ("items", VArr (map item_value l))].

(** The id a response returns to the caller of a creation, if it is the
    201 answer of one. *)
Definition created_id (r : response) : option string :=
  match body r with
  | OfOrder o => if Nat.eqb (code r) 201 then Some (id o) else None
  | _ => None
  end.

(** The ids the creations among [resps] returned. *)
Fixpoint created_ids (resps : list response) : list string :=
  match resps with
  | [] => []
  | r :: rest =>
      match created_id r with
      | Some k => k :: created_ids rest
      | None => created_ids rest
      end
  end.

(** Every own property of [orders] is a pending order under its own id, a
    printed clock reading. *)
Definition well_stored (os : store) : Prop :=
  Forall (fun ko => id (snd ko) = fst ko /\ status (snd ko) = "pending" /\
                    exists t, fst ko = Number_toString t) os.

(** The order the creation handler builds at clock reading [t]. *)
Definition new_order (t : Z) (userId items : value) : order :=
  Order (Number_toString t) userId items "pending".

(* ===================================================================== *)
(** ** The environment of the process *)
(* ===================================================================== *)

(** How an awaited [axios.get] promise settles. The handler drops the
    response of a fulfilled one; a rejected one carries an [Error]. *)
Inductive reply : Type :=
| Resolved
| Rejected (message : string).

(** What the handlers take from outside: the two remote services behind
    [axios.get], the clock, the base URLs read from [process.env], and the
    engine's wording of its [TypeError]s. [World] is the state of all that;
    a call may change it. *)
Record Env : Type := {
  World : Type;
  axios_get : string -> World -> reply * World;
  Date_now : World -> Z * World;
  USER_SERVICE_URL : string;
  INVENTORY_SERVICE_URL : string;
  message_of : type_error -> string
}.

(** A scripted environment in the manner of the jest mocks of
    tests/app.test.js: [axios.get] settles by the next queued reply
    ([mockResolvedValueOnce], [mockRejectedValueOnce]) and resolves once
    the queue is empty; the clock reads [clock] and then advances by
    [tick] ([tick = 0]: two readings within one millisecond). *)
Record mock : Type := Mock {
  replies : list reply;
  clock : Z;
  tick : Z
}.

Definition mock_axios_get (url : string) (w : mock) : reply * mock :=
  match replies w with
  | [] => (Resolved, w)
  | r :: rest => (r, Mock rest (clock w) (tick w))
  end.

Definition mock_Date_now (w : mock) : Z * mock :=
  (clock w, Mock (replies w) (clock w + tick w) (tick w)).

Definition nullish_name (v : value) : string :=
  match v with VNull => "null" | _ => "undefined" end.

(** The messages as V8 words them. *)
Definition v8_message (t : type_error) : string :=
  match t with
  | Destructure v p =>
      "Cannot destructure property '" ++ p ++ "' of 'req.body' as it is "
        ++ nullish_name v ++ "."
  | NotIterable _ => "items is not iterable"
  | ReadOfNullish v p =>
      "Cannot read properties of " ++ nullish_name v
        ++ " (reading '" ++ p ++ "')"
  | NotPrimitive _ => "Cannot convert object to primitive value"
  end.

Definition mock_env : Env := {|
  World := mock;
  axios_get := mock_axios_get;
  Date_now := mock_Date_now;
  USER_SERVICE_URL := "http://user-service:5000";
  INVENTORY_SERVICE_URL := "http://inventory-service:8080";
  message_of := v8_message
|}.

(** Worlds and requests in the manner of the cases of tests/app.test.js:
    every check resolves; the user check rejects; the second product check
    rejects; every check resolves and the clock stands still. *)
Definition all_found : mock := Mock [] 1700000000000 1.

Definition user_missing : mock :=
  Mock [Rejected "User not found"] 1700000000000 1.

Definition second_product_missing : mock :=
  Mock [Resolved; Resolved; Rejected "Product not found"] 1700000000000 1.

Definition same_millisecond : mock := Mock [] 1700000000000 0.

Definition two_items : list line_item :=
  [LineItem "prod-1" 2; LineItem "prod-2" 1].

Definition first_request : value :=
  request_body "user-1" [LineItem "prod-1" 1].

Definition second_request : value :=
  request_body "user-2" [LineItem "prod-2" 3].

Definition first_order : order :=
  new_order 1700000000000 (VStr "user-1")
    (VArr [item_value (LineItem "prod-1" 1)]).

Definition second_order : order :=
  new_order 1700000000000 (VStr "user-2")
    (VArr [item_value (LineItem "prod-2" 3)]).

(* ===================================================================== *)
(** ** The inventory service (services/inventory-service/main.go) *)
(* ===================================================================== *)

(** [type Product struct]. [Quantity] is a Go [int], [Price] a [float64];
    neither is computed with. *)
Record Product : Type := mkProduct {
  ID : string;
  Name : string;
  Quantity : Z;
  Price : float
}.

(** [map[string]Product]: the entries, each key once. A Go map has no
    order; the order of the list is never observed but through [range],
    which visits the entries in an order of the runtime's choice. *)
Definition inventory_map : Type := list (string * Product).

(** [inventory[k] = p] *)
Fixpoint map_assign (m : inventory_map) (k : string) (p : Product)
  : inventory_map :=
  match m with
  | [] => [(k, p)]
  | (k', p') :: r =>
      if String.eqb k' k then (k, p) :: r else (k', p') :: map_assign r k p
  end.

(** [delete(inventory, k)] *)
Definition map_delete (m : inventory_map) (k : string) : inventory_map :=
  filter (fun kp => negb (String.eqb (fst kp) k)) m.

(** What [json.NewEncoder(w).Encode] is given. *)
Inductive document : Type :=
| HealthDoc                         (* {"status": "healthy", "service": "inventory-service"} *)
| ProductsDoc (products : list Product)  (* {"products": [...]} *)
| ProductDoc (p : Product)
| ErrorDoc (message : string).      (* {"error": message} *)

(** What a handler writes to its [http.ResponseWriter]: the status (200
    unless [WriteHeader] says otherwise), the [Content-Type] header and the
    encoded document. *)
Record written : Type := Written {
  StatusCode : nat;
  ContentType : string;
  Encoded : document
}.

(** [s[n:]]: the bytes of [s] from the [n]th on; a slice past the end
    panics ([None]). *)
Fixpoint slice_from (n : nat) (s : string) : option string :=
  match n, s with
  | O, _ => Some s
  | S n', String _ s' => slice_from n' s'
  | S _, EmptyString => None
  end.

(** [func healthHandler] *)
Definition healthHandler : written :=
  Written 200 "application/json" HealthDoc.

(** [func getInventoryHandler]. [range] gives the entries in the order the
    loop meets them, this time. *)
Definition getInventoryHandler (inventory : inventory_map)
  (range : inventory_map -> list (string * Product)) : written :=
  let products :=
    fold_left (fun products kp => (products ++ [snd kp])%list)
      (range inventory) [] in
  Written 200 "application/json" (ProductsDoc products).

(** [func getProductHandler], on [r.URL.Path]; [None] is a panic. *)
Definition getProductHandler (path : string) (inventory : inventory_map)
  : option written :=
  match slice_from (String.length "/api/v1/inventory/") path with
  | None => None
  | Some productID =>
      match assoc productID inventory with
      | Some product => Some (Written 200 "application/json" (ProductDoc product))
      | None =>
          Some (Written 404 "application/json" (ErrorDoc "Product not found"))
      end
  end.

(** What the product handler answers once it has the id. *)
Definition product_answer (inventory : inventory_map) (id : string) : written :=
  match assoc id inventory with
  | Some product => Written 200 "application/json" (ProductDoc product)
  | None => Written 404 "application/json" (ErrorDoc "Product not found")
  end.

(** The inventory [func main] sets up before it serves. *)
Definition main_inventory : inventory_map :=
  map_assign
    (map_assign [] "prod-1" (mkProduct "prod-1" "Widget" 100 29.99%float))
    "prod-2" (mkProduct "prod-2" "Gadget" 50 49.99%float).

(** How a computation ends: with a value, or with a thrown one. *)
Inductive outcome (A : Type) : Type :=
| Returned (a : A)
| Thrown (e : error).
Arguments Returned {A} a.
Arguments Thrown {A} e.

(* ===================================================================== *)
(** ** The handlers *)
(* ===================================================================== *)

Section OrderService.

Variable E : Env.

(** The state of the process: the module-level [orders] object and the
    world outside. *)
Record state : Type := State {
  orders : store;
  world : World E
}.

(** A computation runs from a state to an outcome, the state it leaves and
    the URLs it passed to [axios.get], in call order. *)
Definition M (A : Type) : Type := state -> outcome A * state * list string.

Definition ret {A : Type} (a : A) : M A := fun st => (Returned a, st, []).

Definition throw {A : Type} (e : error) : M A := fun st => (Thrown e, st, []).

Definition bind {A B : Type} (m : M A) (k : A -> M B) : M B :=
  fun st =>
    match m st with
    | (Returned a, st1, c1) =>
        let '(r, st2, c2) := k a st1 in (r, st2, (c1 ++ c2)%list)
    | (Thrown e, st1, c1) => (Thrown e, st1, c1)
    end.

(** [try { m } catch (error) { h error }] *)
Definition try_catch {A : Type} (m : M A) (h : error -> M A) : M A :=
  fun st =>
    match m st with
    | (Thrown e, st1, c1) =>
        let '(r, st2, c2) := h e st1 in (r, st2, (c1 ++ c2)%list)
    | done => done
    end.

Notation "x <- m ;; k" := (bind m (fun x => k))
  (at level 61, m at next level, right associativity).
Notation "m ;;; k" := (bind m (fun _ => k))
  (at level 61, right associativity).

(** [await axios.get(url)] *)
Definition await_get (url : string) : M unit :=
  fun st =>
    let '(r, w) := axios_get E url (world st) in
    (match r with
     | Resolved => Returned tt
     | Rejected message => Thrown (RequestError message)
     end, State (orders st) w, [url]).

(** [Date.now()] *)
Definition now : M Z :=
  fun st =>
    let '(t, w) := Date_now E (world st) in (Returned t, State (orders st) w, []).

Definition read_orders : M store := fun st => (Returned (orders st), st, []).

(** [orders[k] = o] *)
Definition assign (k : string) (o : order) : M unit :=
  fun st => (Returned tt, State (obj_set (orders st) k o) (world st), []).

(** [`${v}`] *)
Definition template (v : value) : M string :=
  match ToString v with
  | Some s => ret s
  | None => throw (TypeError (NotPrimitive v))
  end.

(** [const { userId, items } = body] *)
Definition destructure (body : value) : M (value * value) :=
  match body with
  | VUndefined | VNull => throw (TypeError (Destructure body "userId"))
  | _ => ret (get_field body "userId", get_field body "items")
  end.

(** [v.k] *)
Definition read (v : value) (k : string) : M value :=
  match member v k with
  | inl e => throw e
  | inr x => ret x
  end.

Fixpoint for_each (l : list value) (body : value -> M unit) : M unit :=
  match l with
  | [] => ret tt
  | x :: r => body x ;;; for_each r body
  end.

(** [for (const item of v) { body item }] *)
Definition for_of (v : value) (body : value -> M unit) : M unit :=
  match iterate v with
  | Some l => for_each l body
  | None => throw (TypeError (NotIterable v))
  end.

Definition user_url (user : string) : string :=
  USER_SERVICE_URL E ++ "/api/v1/users/" ++ user.

Definition product_url (product : string) : string :=
  INVENTORY_SERVICE_URL E ++ "/api/v1/inventory/" ++ product.

(** [error.message] *)
Definition error_message (e : error) : string :=
  match e with
  | RequestError message => message
  | TypeError t => message_of E t
  end.

(** The check of one item: the body of the loop. *)
Definition check_item (item : value) : M unit :=
  p <- read item "productId" ;;
  s <- template p ;;
  await_get (product_url s).

(** The [try] block of the creation handler. *)
Definition create_order (body : value) : M response :=
  ui <- destructure body ;;
  let '(userId, items) := ui in
  u <- template userId ;;
  await_get (user_url u) ;;;
  for_of items check_item ;;;
  t <- now ;;
  let orderId := Number_toString t in
  let order := Order orderId userId items "pending" in
  assign orderId order ;;;
  ret (respond 201 (OfOrder order)).

(** [app.post('/api/v1/orders', ...)] *)
Definition post_orders (body : value) : M response :=
  try_catch (create_order body)
    (fun e => ret (respond 400 (OfError (error_message e)))).

(** [app.get('/health', ...)] *)
Definition get_health : M response := ret (respond 200 OfHealth).

(** [app.get('/api/v1/orders', ...)] *)
Definition get_orders : M response :=
  os <- read_orders ;;
  ret (respond 200 (OfOrders (Object_values os))).

(** [app.get('/api/v1/orders/:id', ...)]: [if (order)] takes the first
    branch on an order and on an inherited member alike, both objects. *)
Definition get_order (id : string) : M response :=
  os <- read_orders ;;
  match obj_get os id with
  | Ref o => ret (respond 200 (OfOrder o))
  | Builtin name => ret (respond 200 (OfBuiltin name))
  | Undefined => ret (respond 404 (OfError "Order not found"))
  end.

Definition handle (r : request) : M response :=
  match r with
  | GET_health => get_health
  | GET_orders => get_orders
  | GET_order id => get_order id
  | POST_orders body => post_orders body
  end.

(** The process serving requests one after the other, from [st]: the
    responses, in order, and the state left. The handlers touch [orders]
    only outside their awaits (the creation handler after its last one), so
    requests that overlap in time act on [orders] as if served in the order
    of their last step. *)
Fixpoint serve (rs : list request) (st : state) : list response * state :=
  match rs with
  | [] => ([], st)
  | r :: rest =>
      match handle r st with
      | (Returned resp, st1, _) =>
          let '(resps, st2) := serve rest st1 in (resp :: resps, st2)
      | (Thrown _, st1, _) => serve rest st1
      end
  end.

(** The process at start: no order. *)
Definition start (w : World E) : state := State [] w.

(** Every call of [urls], made in this order from [w], resolves, and leaves
    the world [w']. *)
Fixpoint all_resolve (urls : list string) (w : World E) : option (World E) :=
  match urls with
  | [] => Some w
  | url :: rest =>
      match axios_get E url w with
      | (Resolved, w1) => all_resolve rest w1
      | (Rejected _, _) => None
      end
  end.

Definition item_urls (l : list line_item) : list string :=
  map (fun i => product_url (productId i)) l.

(** The URL the body of the loop requests for [item], when the read of its
    [productId] and the template literal do not throw. *)
Definition item_url (item : value) : option string :=
  match member item "productId" with
  | inl _ => None
  | inr p => option_map product_url (ToString p)
  end.

(** What the loop of the creation handler runs over. *)
Definition elements (v : value) : list value :=
  match iterate v with
  | Some l => l
  | None => []
  end.

(* ===================================================================== *)
(** ** Facts about the [orders] object *)
(* ===================================================================== *)

Lemma assoc_obj_set_same (os : store) (k : string) (o : order) :
  assoc k (obj_set os k o) = Some o.
Proof.
  induction os as [|[k' o'] r IH]; simpl.
  - now rewrite String.eqb_refl.
  - destruct (String.eqb k' k) eqn:Hk; simpl.
    + now rewrite String.eqb_refl.
    + now rewrite Hk.
Qed.

Lemma assoc_obj_set_other (os : store) (k k' : string) (o : order) :
  k' <> k -> assoc k' (obj_set os k o) = assoc k' os.
Proof.
  intros Hne. induction os as [|[k0 o0] r IH]; simpl.
  - destruct (String.eqb_spec k k'); congruence.
  - destruct (String.eqb_spec k0 k) as [->|Hk]; simpl.
    + destruct (String.eqb_spec k k'); congruence.
    + now rewrite IH.
Qed.

(** A read right after a write of the same key finds the value written. *)
Lemma obj_get_set_same (os : store) (k : string) (o : order) :
  obj_get (obj_set os k o) k = Ref o.
Proof. unfold obj_get. now rewrite assoc_obj_set_same. Qed.

Lemma obj_get_set_other (os : store) (k k' : string) (o : order) :
  k' <> k -> obj_get (obj_set os k o) k' = obj_get os k'.
Proof. intros H. unfold obj_get. now rewrite assoc_obj_set_other. Qed.

(** The first character of a printed integer is a digit or the sign. *)
Lemma Number_toString_head (n : Z) :
  exists c s, Number_toString n = String c s /\
    In c ["0"; "1"; "2"; "3"; "4"; "5"; "6"; "7"; "8"; "9"; "-"]%char.
Proof.
  unfold Number_toString.
  destruct n as [|p|p]; simpl.
  - exists "0"%char, "". split; [reflexivity | simpl; tauto].
  - destruct (Pos.to_uint p) as [|d|d|d|d|d|d|d|d|d|d]; simpl;
      eexists; eexists; (split; [reflexivity | simpl; tauto]).
  - eexists; eexists; (split; [reflexivity | simpl; tauto]).
Qed.

(** An order id is no member of [Object.prototype], [__proto__] included:
    [orders[orderId] = order] always defines an own property. *)
Lemma Number_toString_not_inherited (n : Z) :
  mem_string (Number_toString n) Object_prototype = false.
Proof.
  destruct (Number_toString_head n) as (c & s & -> & Hc).
  simpl in Hc.
  repeat (destruct Hc as [<-|Hc]; [reflexivity|]).
  contradiction.
Qed.

(* ===================================================================== *)
(** ** Running the monad *)
(* ===================================================================== *)

Lemma bind_returned {A B : Type} (m : M A) (k : A -> M B) st a st1 c1 :
  m st = (Returned a, st1, c1) ->
  bind m k st = (let '(r, st2, c2) := k a st1 in (r, st2, (c1 ++ c2)%list)).
Proof. intros H. unfold bind. now rewrite H. Qed.

Lemma bind_thrown {A B : Type} (m : M A) (k : A -> M B) st e st1 c1 :
  m st = (Thrown e, st1, c1) ->
  bind m k st = (Thrown e, st1, c1).
Proof. intros H. unfold bind. now rewrite H. Qed.

Lemma bind_ret {A B : Type} (a : A) (k : A -> M B) st :
  bind (ret a) k st = k a st.
Proof. unfold bind, ret. now destruct (k a st) as [[r st2] c2]. Qed.

(** The check of a well-formed item is one call, for its product. *)
Lemma check_item_value (i : line_item) st :
  check_item (item_value i) st = await_get (product_url (productId i)) st.
Proof.
  unfold check_item, read, template. simpl.
  rewrite bind_ret. simpl. now rewrite bind_ret.
Qed.

Lemma await_get_resolved url st w :
  axios_get E url (world st) = (Resolved, w) ->
  await_get url st = (Returned tt, State (orders st) w, [url]).
Proof. intros H. unfold await_get. now rewrite H. Qed.

Lemma await_get_rejected url st msg w :
  axios_get E url (world st) = (Rejected msg, w) ->
  await_get url st = (Thrown (RequestError msg), State (orders st) w, [url]).
Proof. intros H. unfold await_get. now rewrite H. Qed.

(** The resolved checks of well-formed items: one call each, in order. *)
Lemma for_each_items_resolve (l : list line_item) : forall st w',
  all_resolve (item_urls l) (world st) = Some w' ->
  for_each (map item_value l) check_item st
  = (Returned tt, State (orders st) w', item_urls l).
Proof.
  induction l as [|i r IH]; intros st w' H; simpl in *.
  - inversion H; subst. unfold ret. now destruct st.
  - destruct (axios_get E (product_url (productId i)) (world st))
      as [[|msg] w1] eqn:Hget; [|discriminate].
    rewrite (bind_returned _ _ st tt (State (orders st) w1)
               [product_url (productId i)]).
    + now rewrite (IH (State (orders st) w1) w' H).
    + rewrite check_item_value. now apply await_get_resolved.
Qed.

(** The first rejected check ends the loop: the items after it are not
    read. *)
Lemma for_each_items_reject (pre : list line_item) (it : line_item)
  (post : list line_item) : forall st w1 msg w2,
  all_resolve (item_urls pre) (world st) = Some w1 ->
  axios_get E (product_url (productId it)) w1 = (Rejected msg, w2) ->
  for_each (map item_value (pre ++ it :: post)) check_item st
  = (Thrown (RequestError msg), State (orders st) w2,
     (item_urls pre ++ [product_url (productId it)])%list).
Proof.
  induction pre as [|i r IH]; intros st w1 msg w2 H Hrej; simpl in *.
  - inversion H; subst.
    apply bind_thrown. rewrite check_item_value.
    now apply await_get_rejected.
  - destruct (axios_get E (product_url (productId i)) (world st))
      as [[|m] w0] eqn:Hget; [|discriminate].
    rewrite (bind_returned _ _ st tt (State (orders st) w0)
               [product_url (productId i)]).
    + now rewrite (IH (State (orders st) w0) w1 msg w2 H Hrej).
    + rewrite check_item_value. now apply await_get_resolved.
Qed.

(** A well-formed request whose checks all resolve: the [try] block runs to
    its end. [w1] is the world after the last check; the clock is read
    there. *)
Lemma create_order_accepts (user : string) (l : list line_item) st w1 :
  all_resolve (user_url user :: item_urls l) (world st) = Some w1 ->
  let o := new_order (fst (Date_now E w1)) (VStr user)
             (VArr (map item_value l)) in
  create_order (request_body user l) st
  = (Returned (respond 201 (OfOrder o)),
     State (obj_set (orders st) (id o) o) (snd (Date_now E w1)),
     user_url user :: item_urls l).
Proof.
  intros H o. simpl in H.
  destruct (axios_get E (user_url user) (world st)) as [[|msg] w0] eqn:Hget;
    [|discriminate].
  unfold create_order, destructure. simpl.
  rewrite bind_ret. unfold template. simpl. rewrite bind_ret.
  rewrite (bind_returned _ _ st tt (State (orders st) w0) [user_url user]
             (await_get_resolved _ _ _ Hget)).
  unfold for_of. simpl.
  rewrite (bind_returned _ _ _ tt (State (orders st) w1) (item_urls l)
             (for_each_items_resolve l (State (orders st) w0) w1 H)).
  unfold bind, now, assign, ret. simpl.
  destruct (Date_now E w1) as [t w2] eqn:Hnow. simpl.
  subst o. simpl.
  now rewrite !app_nil_r.
Qed.

Lemma post_orders_returned (b : value) st resp st' calls :
  create_order b st = (Returned resp, st', calls) ->
  post_orders b st = (Returned resp, st', calls).
Proof. intros H. unfold post_orders, try_catch. now rewrite H. Qed.

Lemma post_orders_thrown (b : value) st e st' calls :
  create_order b st = (Thrown e, st', calls) ->
  post_orders b st
  = (Returned (respond 400 (OfError (error_message e))), st', calls).
Proof.
  intros H. unfold post_orders, try_catch. rewrite H.
  unfold ret. now rewrite app_nil_r.
Qed.

Lemma destructure_object (b : value) :
  b <> VUndefined -> b <> VNull ->
  destructure b = ret (get_field b "userId", get_field b "items").
Proof. intros H1 H2. destruct b; simpl; congruence. Qed.

(** The [try] block up to the user check, when that check rejects. *)
Lemma create_order_user_rejected (b : value) (user : string) st msg w1 :
  b <> VUndefined -> b <> VNull ->
  ToString (get_field b "userId") = Some user ->
  axios_get E (user_url user) (world st) = (Rejected msg, w1) ->
  create_order b st
  = (Thrown (RequestError msg), State (orders st) w1, [user_url user]).
Proof.
  intros H1 H2 Hu Hget. unfold create_order.
  rewrite (destructure_object b H1 H2), bind_ret.
  unfold template. rewrite Hu, bind_ret.
  apply bind_thrown. now apply await_get_rejected.
Qed.

(** The [try] block over items that cannot be iterated, past a user check
    that resolves. *)
Lemma create_order_not_iterable (b : value) (user : string) st w1 :
  b <> VUndefined -> b <> VNull ->
  ToString (get_field b "userId") = Some user ->
  axios_get E (user_url user) (world st) = (Resolved, w1) ->
  iterate (get_field b "items") = None ->
  create_order b st
  = (Thrown (TypeError (NotIterable (get_field b "items"))),
     State (orders st) w1, [user_url user]).
Proof.
  intros H1 H2 Hu Hget Hit. unfold create_order.
  rewrite (destructure_object b H1 H2), bind_ret.
  unfold template. rewrite Hu, bind_ret.
  rewrite (bind_returned _ _ st tt (State (orders st) w1) [user_url user]
             (await_get_resolved _ _ _ Hget)).
  unfold for_of. rewrite Hit. reflexivity.
Qed.

Lemma bind_throw {A B : Type} (e : error) (k : A -> M B) st :
  bind (throw e) k st = (Thrown e, st, []).
Proof. reflexivity. Qed.

(** The checks read and write nothing of [orders]. *)
Lemma await_get_keeps url st r st' c :
  await_get url st = (r, st', c) -> orders st' = orders st.
Proof.
  unfold await_get. destruct (axios_get E url (world st)) as [rep w].
  intros H. now inversion H.
Qed.

Lemma check_item_keeps (x : value) st r st' c :
  check_item x st = (r, st', c) -> orders st' = orders st.
Proof.
  unfold check_item, read.
  destruct (member x "productId") as [e|p].
  - rewrite bind_throw. intros H. now inversion H.
  - rewrite bind_ret. unfold template. destruct (ToString p) as [u|].
    + rewrite bind_ret. apply await_get_keeps.
    + rewrite bind_throw. intros H. now inversion H.
Qed.

Lemma for_each_keeps (l : list value) : forall st r st' c,
  for_each l check_item st = (r, st', c) -> orders st' = orders st.
Proof.
  induction l as [|x l IH]; intros st r st' c; simpl.
  - unfold ret. intros H. now inversion H.
  - unfold bind.
    destruct (check_item x st) as [[[[]|e] s1] c1] eqn:Hx.
    + destruct (for_each l check_item s1) as [[r2 s2] c2] eqn:Hl.
      intros H. inversion H; subst.
      rewrite (IH _ _ _ _ Hl). eapply check_item_keeps, Hx.
    + intros H. inversion H; subst. eapply check_item_keeps, Hx.
Qed.

Lemma for_of_keeps (v : value) st r st' c :
  for_of v check_item st = (r, st', c) -> orders st' = orders st.
Proof.
  unfold for_of. destruct (iterate v) as [l|].
  - apply for_each_keeps.
  - unfold throw. intros H. now inversion H.
Qed.

(** The [try] block, by its outcome. It returns only past every check,
    with the order it built from the body and the clock and wrote under
    its id; when it throws, [orders] is as it was. *)
Lemma create_order_cases (b : value) st r st' calls :
  create_order b st = (r, st', calls) ->
  match r with
  | Returned resp =>
      exists t w,
        let o := new_order t (get_field b "userId") (get_field b "items") in
        resp = respond 201 (OfOrder o) /\
        st' = State (obj_set (orders st) (id o) o) w
  | Thrown _ => orders st' = orders st
  end.
Proof.
  unfold create_order.
  assert (Hnull : b = VUndefined \/ b = VNull \/
                  (b <> VUndefined /\ b <> VNull))
    by (destruct b; auto; right; right; split; discriminate).
  destruct Hnull as [->|[->|[H1 H2]]];
    try (simpl; rewrite bind_throw; intros H; now inversion H).
  rewrite (destructure_object b H1 H2), bind_ret.
  unfold template. destruct (ToString (get_field b "userId")) as [u|];
    [|rewrite bind_throw; intros H; now inversion H].
  rewrite bind_ret. unfold bind at 1.
  destruct (await_get (user_url u) st) as [[[[]|e] s1] c1] eqn:Hu;
    [|intros H; inversion H; subst; eapply await_get_keeps, Hu].
  apply await_get_keeps in Hu.
  unfold bind at 1.
  destruct (for_of (get_field b "items") check_item s1)
    as [[[[]|e] s2] c2] eqn:Hl;
    [|intros H; inversion H; subst;
      rewrite <- Hu; eapply for_of_keeps, Hl].
  apply for_of_keeps in Hl.
  unfold bind, now, assign, ret. simpl.
  destruct (Date_now E (world s2)) as [t w] eqn:Hnow. simpl.
  intros H. inversion H; subst. exists t, w. simpl.
  split; [reflexivity|]. now rewrite Hl, Hu.
Qed.

(** The creation handler always answers: 201 from a [try] block that
    returned, 400 from one that threw. *)
Lemma post_orders_cases (b : value) st :
  exists resp st' calls,
    post_orders b st = (Returned resp, st', calls) /\
    ((code resp = 201 /\ create_order b st = (Returned resp, st', calls)) \/
     (code resp = 400 /\ exists e, create_order b st = (Thrown e, st', calls))).
Proof.
  destruct (create_order b st) as [[[resp|e] st'] calls] eqn:Hc.
  - exists resp, st', calls. split; [now apply post_orders_returned|].
    left. split; [|reflexivity].
    apply create_order_cases in Hc. destruct Hc as (t & w & -> & _).
    reflexivity.
  - exists (respond 400 (OfError (error_message e))), st', calls.
    split; [exact (post_orders_thrown _ _ _ _ _ Hc)|].
    right. split; [reflexivity|]. now exists e.
Qed.

(* ===================================================================== *)
(** ** The creation handler: checks made and requests turned down *)
(* ===================================================================== *)

(** C3: a creation request [{ userId, items }] whose checks all succeed
    makes exactly [1 + length items] calls to [axios.get]: the user check
    first, then one product check per item, in the order of the list. *)
Theorem create_calls_user_then_items (user : string) (l : list line_item)
  st w1 :
  all_resolve (user_url user :: item_urls l) (world st) = Some w1 ->
  exists resp st' calls,
    post_orders (request_body user l) st = (Returned resp, st', calls) /\
    code resp = 201 /\
    calls = user_url user :: map (fun i => product_url (productId i)) l /\
    List.length calls = 1 + List.length l.
Proof.
  intros H.
  pose proof (create_order_accepts user l st w1 H) as Hc. simpl in Hc.
  apply post_orders_returned in Hc.
  eexists; eexists; eexists. split; [exact Hc|].
  repeat split. unfold item_urls. simpl. now rewrite length_map.
Qed.

(** C4: when the user check fails, no product check is made (the only call
    is the user check), [orders] is left as it was, and the answer is 400
    with the message of the failed check. *)
Theorem user_check_failure (b : value) (user : string) st msg w1 :
  b <> VUndefined -> b <> VNull ->
  ToString (get_field b "userId") = Some user ->
  axios_get E (user_url user) (world st) = (Rejected msg, w1) ->
  post_orders b st
  = (Returned (respond 400 (OfError msg)), State (orders st) w1,
     [user_url user]).
Proof.
  intros H1 H2 Hu Hget.
  now rewrite (post_orders_thrown _ _ _ _ _
                 (create_order_user_rejected b user st msg w1 H1 H2 Hu Hget)).
Qed.

(** C5: when the check of item [k] is the first to fail ([pre] holds the
    [k - 1] items before it, [post] the ones after), the calls made are the
    user check and the product checks of items 1 to [k], none for [post];
    [orders] is left as it was, so that every read by id and the listing
    answer as before the request; the answer is 400 with the message of
    the failed check. *)
Theorem item_check_failure (user : string) (pre : list line_item)
  (it : line_item) (post : list line_item) st w1 msg w2 :
  all_resolve (user_url user :: item_urls pre) (world st) = Some w1 ->
  axios_get E (product_url (productId it)) w1 = (Rejected msg, w2) ->
  exists st',
    post_orders (request_body user (pre ++ it :: post)) st
    = (Returned (respond 400 (OfError msg)), st',
       (user_url user :: item_urls pre ++ [product_url (productId it)])%list)
    /\ orders st' = orders st
    /\ (forall k, fst (fst (get_order k st')) = fst (fst (get_order k st)))
    /\ fst (fst (get_orders st')) = fst (fst (get_orders st)).
Proof.
  intros H Hrej. simpl in H.
  destruct (axios_get E (user_url user) (world st)) as [[|m] w0] eqn:Hget;
    [|discriminate].
  exists (State (orders st) w2). split; [|split; [|split]].
  - apply post_orders_thrown with (e := RequestError msg).
    unfold create_order, destructure. simpl.
    rewrite bind_ret. unfold template. simpl. rewrite bind_ret.
    rewrite (bind_returned _ _ st tt (State (orders st) w0) [user_url user]
               (await_get_resolved _ _ _ Hget)).
    unfold for_of. simpl.
    rewrite (bind_thrown _ _ _ _ _ _
               (for_each_items_reject pre it post (State (orders st) w0)
                  w1 msg w2 H Hrej)).
    reflexivity.
  - reflexivity.
  - intros k. unfold get_order, bind, read_orders. simpl.
    now destruct (obj_get (orders st) k).
  - reflexivity.
Qed.

(** C8: an empty [items] list is accepted: once the user check succeeds the
    answer is 201 with an order record that [orders] now holds under its
    id, after one call, the user check, and no product check. *)
Theorem create_with_no_items (user : string) st w1 :
  axios_get E (user_url user) (world st) = (Resolved, w1) ->
  exists o st',
    post_orders (request_body user []) st
    = (Returned (respond 201 (OfOrder o)), st', [user_url user]) /\
    obj_get (orders st') (id o) = Ref o /\
    userId o = VStr user /\ items o = VArr [] /\ status o = "pending".
Proof.
  intros Hget.
  assert (H : all_resolve (user_url user :: item_urls []) (world st) = Some w1)
    by (simpl; now rewrite Hget).
  pose proof (create_order_accepts user [] st w1 H) as Hc. simpl in Hc.
  apply post_orders_returned in Hc.
  eexists; eexists. split; [exact Hc|]. simpl.
  split; [apply obj_get_set_same | repeat split].
Qed.

(** C10: a body whose [items] cannot be iterated (missing, or no array and
    no string) never gets an order stored and never makes the handler
    throw: the [try] block throws, the handler catches, answers 400 with
    the message of what was thrown and leaves [orders] as it was. Past a
    user check that resolves, what is thrown is the [TypeError] of the
    iteration. *)
Theorem items_not_iterable (b : value) st :
  iterate (get_field b "items") = None ->
  exists e st' calls,
    create_order b st = (Thrown e, st', calls) /\
    post_orders b st
    = (Returned (respond 400 (OfError (error_message e))), st', calls) /\
    orders st' = orders st /\
    (forall user w1,
       b <> VUndefined -> b <> VNull ->
       ToString (get_field b "userId") = Some user ->
       axios_get E (user_url user) (world st) = (Resolved, w1) ->
       e = TypeError (NotIterable (get_field b "items")) /\
       calls = [user_url user]).
Proof.
  intros Hit.
  assert (Hthrown : forall e st' calls,
    create_order b st = (Thrown e, st', calls) ->
    orders st' = orders st ->
    (forall user w1,
       b <> VUndefined -> b <> VNull ->
       ToString (get_field b "userId") = Some user ->
       axios_get E (user_url user) (world st) = (Resolved, w1) ->
       e = TypeError (NotIterable (get_field b "items")) /\
       calls = [user_url user]) ->
    exists e st' calls,
      create_order b st = (Thrown e, st', calls) /\
      post_orders b st
      = (Returned (respond 400 (OfError (error_message e))), st', calls) /\
      orders st' = orders st /\
      (forall user w1,
         b <> VUndefined -> b <> VNull ->
         ToString (get_field b "userId") = Some user ->
         axios_get E (user_url user) (world st) = (Resolved, w1) ->
         e = TypeError (NotIterable (get_field b "items")) /\
         calls = [user_url user])).
  { intros e st' calls Hc Ho Hlast. exists e, st', calls.
    repeat split; try assumption; try (now apply post_orders_thrown);
      now apply (Hlast user w1). }
  assert (Hnull : b = VUndefined \/ b = VNull \/
                  (b <> VUndefined /\ b <> VNull))
    by (destruct b; auto; right; right; split; discriminate).
  destruct Hnull as [->|[->|[H1 H2]]].
  - apply (Hthrown (TypeError (Destructure VUndefined "userId")) st []);
      [destruct st; reflexivity | reflexivity | congruence].
  - apply (Hthrown (TypeError (Destructure VNull "userId")) st []);
      [destruct st; reflexivity | reflexivity | congruence].
  - destruct (ToString (get_field b "userId")) as [user|] eqn:Hu.
    + destruct (axios_get E (user_url user) (world st)) as [[|msg] w1] eqn:Hg.
      * apply (Hthrown _ _ _
                 (create_order_not_iterable b user st w1 H1 H2 Hu Hg Hit));
          [reflexivity|].
        intros user' w1' _ _ Hu' Hg'. split; [reflexivity|].
        congruence.
      * apply (Hthrown _ _ _
                 (create_order_user_rejected b user st msg w1 H1 H2 Hu Hg));
          [reflexivity|].
        intros user' w1' _ _ Hu' Hg'.
        assert (user' = user) by congruence. subst. congruence.
    + apply (Hthrown (TypeError (NotPrimitive (get_field b "userId"))) st []);
        [|reflexivity|congruence].
      unfold create_order. rewrite (destructure_object b H1 H2), bind_ret.
      unfold template. rewrite Hu. reflexivity.
Qed.

(* ===================================================================== *)
(** ** Reading orders back *)
(* ===================================================================== *)

(** C6: after a creation answered 201 with an order record, a read of that
    record's id from the state the creation left answers 200 with the very
    same record. *)
Theorem get_after_create (b : value) st resp st' calls :
  post_orders b st = (Returned resp, st', calls) ->
  code resp = 201 ->
  exists o,
    body resp = OfOrder o /\
    get_order (id o) st' = (Returned (respond 200 (OfOrder o)), st', []).
Proof.
  intros Hp Hcode.
  destruct (post_orders_cases b st)
    as (resp' & st'' & calls' & Hp' & [[_ Hc] | [Hcode' _]]);
    rewrite Hp in Hp'; inversion Hp'; subst; [|congruence].
  apply create_order_cases in Hc. destruct Hc as (t & w & -> & ->).
  eexists. split; [reflexivity|].
  unfold get_order, bind, read_orders. simpl.
  now rewrite obj_get_set_same.
Qed.

(** C7, at an id no creation ever returned: [orders] starts as an object
    literal, so [orders['constructor']] is the inherited constructor, the
    handler takes it for an order and answers 200, not 404. *)
Theorem get_order_constructor (w : World E) :
  get_order "constructor" (start w)
  = (Returned (respond 200 (OfBuiltin "constructor")), start w, []).
Proof. reflexivity. Qed.

(** A read of a key that is no own property and no member of
    [Object.prototype] answers 404 and changes nothing. *)
Lemma get_order_absent (k : string) st :
  assoc k (orders st) = None ->
  mem_string k Object_prototype = false ->
  get_order k st
  = (Returned (respond 404 (OfError "Order not found")), st, []).
Proof.
  intros Hk Hp. unfold get_order, bind, read_orders, obj_get.
  cbv beta iota. now rewrite Hk, Hp.
Qed.

(** The three [GET] handlers return, make no call and leave the state as
    it was. *)
Lemma get_keeps_state (r : request) st :
  (forall b, r <> POST_orders b) ->
  exists resp, handle r st = (Returned resp, st, []).
Proof.
  intros Hr. destruct r as [| |k|b]; simpl.
  - now eexists.
  - now eexists.
  - unfold get_order, bind, read_orders. simpl.
    destruct (obj_get (orders st) k); now eexists.
  - now destruct (Hr b).
Qed.

(** No handler throws: every request is answered. *)
Lemma handle_returns (r : request) st :
  exists resp st' calls, handle r st = (Returned resp, st', calls).
Proof.
  destruct r as [| |k|b].
  - destruct (get_keeps_state GET_health st) as [resp H]; [discriminate|].
    now exists resp, st, [].
  - destruct (get_keeps_state GET_orders st) as [resp H]; [discriminate|].
    now exists resp, st, [].
  - destruct (get_keeps_state (GET_order k) st) as [resp H]; [discriminate|].
    now exists resp, st, [].
  - destruct (post_orders_cases b st) as (resp & st' & calls & H & _).
    now exists resp, st', calls.
Qed.

(** What a request does to [orders]: nothing, or one write, of the pending
    order the answer carries, under its id, a printed clock reading. *)
Lemma handle_orders (r : request) st resp st' calls :
  handle r st = (Returned resp, st', calls) ->
  orders st' = orders st \/
  exists t uid its,
    resp = respond 201 (OfOrder (new_order t uid its)) /\
    orders st' = obj_set (orders st) (Number_toString t) (new_order t uid its).
Proof.
  intros H.
  assert (Hpost : (forall b, r <> POST_orders b) \/ exists b, r = POST_orders b)
    by (destruct r; [left; discriminate ..| right; now eexists]).
  destruct Hpost as [Hr|[b ->]].
  - destruct (get_keeps_state r st Hr) as [resp' H'].
    rewrite H in H'. inversion H'; subst. now left.
  - simpl in H.
    destruct (post_orders_cases b st)
      as (resp' & st'' & calls' & Hp & [[_ Hc] | [_ [e Hc]]]);
      rewrite H in Hp; inversion Hp; subst;
      apply create_order_cases in Hc.
    + destruct Hc as (t & w & -> & ->). right.
      now exists t, (get_field b "userId"), (get_field b "items").
    + now left.
Qed.

Lemma obj_set_well_stored (os : store) (t : Z) (uid its : value) :
  well_stored os ->
  well_stored (obj_set os (Number_toString t) (new_order t uid its)).
Proof.
  unfold well_stored.
  assert (Hnew : id (new_order t uid its) = Number_toString t /\
                 status (new_order t uid its) = "pending" /\
                 exists t', Number_toString t = Number_toString t')
    by (repeat split; now exists t).
  induction os as [|[k o] r IH]; simpl; intros H.
  - constructor; [exact Hnew | constructor].
  - inversion H; subst.
    destruct (String.eqb k (Number_toString t)); constructor; auto.
Qed.

(** From the start of the process on, whatever requests it served,
    [orders] holds pending orders only, each under its own id, and each id
    was returned by a creation. *)
Lemma serve_invariant (rs : list request) : forall st resps st',
  serve rs st = (resps, st') ->
  (well_stored (orders st) -> well_stored (orders st')) /\
  (forall k, assoc k (orders st') <> None ->
             assoc k (orders st) <> None \/ In k (created_ids resps)).
Proof.
  induction rs as [|r rs IH]; intros st resps st' H; simpl in H.
  - inversion H; subst. split; auto.
  - destruct (handle_returns r st) as (resp & st1 & calls & Hr).
    rewrite Hr in H.
    destruct (serve rs st1) as [resps1 st2] eqn:Hs.
    inversion H; subst. destruct (IH _ _ _ Hs) as [IHw IHk].
    destruct (handle_orders _ _ _ _ _ Hr) as [Ho|(t & uid & its & -> & Ho)].
    + rewrite Ho in *. split; [exact IHw|].
      intros k Hk. destruct (IHk k Hk) as [?|Hin]; [now left|right].
      simpl. destruct (created_id resp); simpl; auto.
    + rewrite Ho in *. split.
      * intros Hw. now apply IHw, obj_set_well_stored.
      * intros k Hk. destruct (IHk k Hk) as [Hst|Hin].
        -- destruct (String.eqb_spec k (Number_toString t)) as [->|Hne].
           ++ right. simpl. now left.
           ++ left. now rewrite assoc_obj_set_other in Hst.
        -- right. simpl. now right.
Qed.

Lemma assoc_In {A : Type} (k : string) (l : list (string * A)) (a : A) :
  assoc k l = Some a -> In (k, a) l.
Proof.
  induction l as [|[k' a'] r IH]; simpl; [discriminate|].
  destruct (String.eqb_spec k' k) as [->|Hne].
  - intros [= ->]. now left.
  - intros H. right. now apply IH.
Qed.

(** Two clock readings print alike only when they are the same reading. *)
Lemma Number_toString_inj (n n' : Z) :
  Number_toString n = Number_toString n' -> n = n'.
Proof.
  assert (Hparse : forall z,
    NilZero.int_of_string (Number_toString z) = Some (Z.to_int z)).
  { intros z. apply NilZero.isi; destruct z; simpl; try discriminate;
      intros [= Hp]; now apply (Unsigned.to_uint_nonnil p). }
  intros H. apply DecimalZ.to_int_inj.
  pose proof (Hparse n) as Hn. rewrite H, Hparse in Hn. congruence.
Qed.

(* ===================================================================== *)
(** ** What holds of ids, reads and stored orders *)
(* ===================================================================== *)

(** X1: the record of an accepted request is pending, with the caller's user id
    and items as sent, under the id printed from the clock reading taken
    after the last check; the record answered is the one [orders] holds. *)
Theorem create_stores_pending_order (user : string) (l : list line_item)
  st w1 :
  all_resolve (user_url user :: item_urls l) (world st) = Some w1 ->
  exists o st' calls,
    post_orders (request_body user l) st
    = (Returned (respond 201 (OfOrder o)), st', calls) /\
    status o = "pending" /\ userId o = VStr user /\
    items o = VArr (map item_value l) /\
    id o = Number_toString (fst (Date_now E w1)) /\
    obj_get (orders st') (id o) = Ref o.
Proof.
  intros H.
  pose proof (create_order_accepts user l st w1 H) as Hc. simpl in Hc.
  apply post_orders_returned in Hc.
  eexists; eexists; eexists. split; [exact Hc|]. simpl.
  repeat split. apply obj_get_set_same.
Qed.

(** X2: a creation at a clock reading other than [t] leaves the order
    stored under the id of [t] in place. *)
Theorem create_at_other_reading_keeps (b : value) st resp st' calls (t : Z) :
  post_orders b st = (Returned resp, st', calls) ->
  (forall o, body resp = OfOrder o -> id o <> Number_toString t) ->
  obj_get (orders st') (Number_toString t)
  = obj_get (orders st) (Number_toString t).
Proof.
  intros Hp Hid.
  destruct (handle_orders (POST_orders b) _ _ _ _ Hp)
    as [Ho|(t' & uid & its & -> & Ho)]; rewrite Ho; [reflexivity|].
  apply obj_get_set_other. intros Heq.
  apply (Hid (new_order t' uid its) eq_refl). simpl. congruence.
Qed.

(** X3: in every state the process reaches from its start, a read of an
    id that no creation returned and that [Object.prototype] does not define
    answers 404 with the fixed message and changes nothing. *)
Theorem get_unknown_id_not_found (w : World E) (rs : list request)
  resps st (k : string) :
  serve rs (start w) = (resps, st) ->
  ~ In k (created_ids resps) ->
  mem_string k Object_prototype = false ->
  get_order k st
  = (Returned (respond 404 (OfError "Order not found")), st, []).
Proof.
  intros Hs Hk Hp. apply get_order_absent; [|exact Hp].
  destruct (serve_invariant rs _ _ _ Hs) as [_ Hkeys].
  destruct (assoc k (orders st)) as [o|] eqn:Ha; [|reflexivity].
  destruct (Hkeys k) as [H|H]; [congruence| |]; simpl in H; tauto.
Qed.

(** X4: in every state the process reaches from its start, the order read
    under an id carries that id and is pending; and a read, a listing or
    a health check leaves the state as it was. *)
Theorem stored_orders_stay_pending (w : World E) (rs : list request)
  resps st (k : string) (o : order) :
  serve rs (start w) = (resps, st) ->
  obj_get (orders st) k = Ref o ->
  id o = k /\ status o = "pending" /\
  snd (fst (get_order k st)) = st /\ snd (fst (get_orders st)) = st /\
  snd (fst (get_health st)) = st.
Proof.
  intros Hs Hk.
  destruct (serve_invariant rs _ _ _ Hs) as [Hw _].
  specialize (Hw (Forall_nil _)).
  unfold obj_get in Hk. destruct (assoc k (orders st)) as [o'|] eqn:Ha;
    [|destruct (mem_string k Object_prototype); discriminate].
  inversion Hk; subst o'. apply assoc_In in Ha.
  unfold well_stored in Hw. rewrite Forall_forall in Hw.
  destruct (Hw _ Ha) as (Hid & Hst & _). simpl in Hid, Hst.
  repeat split; auto.
  unfold get_order, bind, read_orders. simpl.
  now destruct (obj_get (orders st) k).
Qed.

(* ===================================================================== *)
(** ** The calls of a creation, whatever the body *)
(* ===================================================================== *)

(** One run of the loop body: it throws before any call exactly when the
    item has no URL, and otherwise makes the one call of the item's URL
    and returns or throws as that call settles. *)
Lemma check_item_cases (x : value) st r st' c :
  check_item x st = (r, st', c) ->
  (item_url x = None /\ c = [] /\ st' = st /\ exists e, r = Thrown e) \/
  (exists url,
     item_url x = Some url /\ c = [url] /\ orders st' = orders st /\
     ((r = Returned tt /\
       axios_get E url (world st) = (Resolved, world st')) \/
      (exists msg, r = Thrown (RequestError msg) /\
       axios_get E url (world st) = (Rejected msg, world st')))).
Proof.
  unfold check_item, read, item_url.
  destruct (member x "productId") as [e|p].
  - rewrite bind_throw. intros H. inversion H; subst. left.
    repeat split. now exists e.
  - rewrite bind_ret. unfold template. destruct (ToString p) as [u|]; simpl.
    + rewrite bind_ret. unfold await_get.
      destruct (axios_get E (product_url u) (world st)) as [[|msg] w] eqn:Hg;
        intros H; inversion H; subst; right; exists (product_url u);
        repeat split; simpl.
      * now left.
      * right. now exists msg.
    + rewrite bind_throw. intros H. inversion H; subst. left.
      repeat split. now eexists.
Qed.

(** The loop, whatever its items: the calls are the URLs of the first [n]
    items, in order; a loop that returns went through every item, every
    call resolving. *)
Lemma for_each_calls (l : list value) : forall st r st' c,
  for_each l check_item st = (r, st', c) ->
  exists n,
    n <= List.length l /\
    map Some c = map item_url (firstn n l) /\
    (r = Returned tt ->
     n = List.length l /\ all_resolve c (world st) = Some (world st')).
Proof.
  induction l as [|x l IH]; intros st r st' c; simpl.
  - unfold ret. intros H. inversion H; subst. exists 0. now repeat split.
  - unfold bind.
    destruct (check_item x st) as [[[[]|e] s1] c1] eqn:Hx.
    + destruct (for_each l check_item s1) as [[r2 s2] c2] eqn:Hl.
      intros H. inversion H; subst.
      destruct (check_item_cases _ _ _ _ _ Hx)
        as [(_ & _ & _ & e & He)|(url & Hu & -> & _ & [[_ Hg]|(m & Hm & _)])];
        try discriminate.
      destruct (IH _ _ _ _ Hl) as (n & Hn & Hc & Hr).
      exists (S n). split; [lia|]. split.
      * simpl. now rewrite Hu, Hc.
      * intros ->. destruct (Hr eq_refl) as [-> Hall].
        split; [reflexivity|]. simpl. now rewrite Hg.
    + intros H. inversion H; subst.
      destruct (check_item_cases _ _ _ _ _ Hx)
        as [(Hu & -> & _ & _)|(url & Hu & -> & _ & _)].
      * exists 0. repeat split; [lia | discriminate | discriminate].
      * exists 1. split; [lia|]. split; [simpl; now rewrite Hu|].
        discriminate.
Qed.

(** The [try] block, by its calls: none when it throws before the user
    check; else the user check, then the checks of the first [n] items, in
    order. When it returns, [n] is the number of items and every call
    resolved. *)
Lemma create_order_trace (b : value) st r st' calls :
  create_order b st = (r, st', calls) ->
  (calls = [] /\ exists e, r = Thrown e) \/
  exists u rest n,
    ToString (get_field b "userId") = Some u /\
    calls = user_url u :: rest /\
    n <= List.length (elements (get_field b "items")) /\
    map Some rest = map item_url (firstn n (elements (get_field b "items"))) /\
    (forall resp, r = Returned resp ->
       iterate (get_field b "items") <> None /\
       n = List.length (elements (get_field b "items")) /\
       exists w1, all_resolve calls (world st) = Some w1).
Proof.
  unfold create_order.
  assert (Hnull : b = VUndefined \/ b = VNull \/
                  (b <> VUndefined /\ b <> VNull))
    by (destruct b; auto; right; right; split; discriminate).
  destruct Hnull as [->|[->|[H1 H2]]];
    try (simpl; rewrite bind_throw; intros H; inversion H; subst; left;
         split; [reflexivity | now eexists]).
  rewrite (destructure_object b H1 H2), bind_ret.
  unfold template. destruct (ToString (get_field b "userId")) as [u|];
    [|rewrite bind_throw; intros H; inversion H; subst; left;
      split; [reflexivity | now eexists]].
  rewrite bind_ret. unfold bind at 1. unfold await_get at 1.
  destruct (axios_get E (user_url u) (world st)) as [[|msg] w0] eqn:Hg.
  - unfold bind at 1. unfold for_of, elements.
    destruct (iterate (get_field b "items")) as [l|] eqn:Hit.
    + destruct (for_each l check_item (State (orders st) w0))
        as [[[[]|e] s2] c2] eqn:Hl;
        destruct (for_each_calls _ _ _ _ _ Hl) as (n & Hn & Hc & Hr).
      * unfold bind, now, assign, ret. simpl.
        destruct (Date_now E (world s2)) as [t w] eqn:Hnow. simpl.
        intros H. inversion H; subst. right. exists u, c2, n.
        rewrite !app_nil_r. repeat split; auto.
        -- discriminate.
        -- now destruct (Hr eq_refl).
        -- destruct (Hr eq_refl) as [_ Hall]. simpl in Hall.
           exists (world s2). simpl. now rewrite Hg.
      * intros H. inversion H; subst. right. exists u, c2, n.
        repeat split; auto; discriminate.
    + unfold throw. intros H. inversion H; subst. right.
      exists u, [], 0. simpl. repeat split; auto; discriminate.
  - intros H. inversion H; subst. right. exists u, [], 0.
    repeat split; simpl; auto; try lia; discriminate.
Qed.


(** X6: whatever the body and however the creation ends, the handler
    makes no call at all, or the user check first and then the product
    checks of the first [n] items, one each, in order: never a product
    check without the user check, never an item out of turn or twice. *)
Theorem calls_are_user_then_item_prefix (b : value) st :
  exists r st' calls,
    post_orders b st = (r, st', calls) /\
    (calls = [] \/
     exists u rest n,
       ToString (get_field b "userId") = Some u /\
       calls = user_url u :: rest /\
       n <= List.length (elements (get_field b "items")) /\
       map Some rest
       = map item_url (firstn n (elements (get_field b "items")))).
Proof.
  destruct (post_orders_cases b st)
    as (resp & st' & calls & Hp & [[_ Hc] | [_ [e Hc]]]);
    exists (Returned resp), st', calls; (split; [exact Hp|]);
    (destruct (create_order_trace _ _ _ _ _ Hc)
      as [(-> & _)|(u & rest & n & Hu & -> & Hn & Hrest & _)];
     [now left | right; now exists u, rest, n]).
Qed.

(** X7: a creation is all or nothing. Either it is answered 201 with an
    order record, that record is then read under its id and every other
    key of [orders] reads as before; or it is answered 400 with an error
    message and [orders] is as it was. *)
Theorem create_all_or_nothing (b : value) st :
  exists resp st' calls,
    post_orders b st = (Returned resp, st', calls) /\
    ((code resp = 201 /\
      exists o, body resp = OfOrder o /\
        obj_get (orders st') (id o) = Ref o /\
        forall k, k <> id o ->
          obj_get (orders st') k = obj_get (orders st) k) \/
     (code resp = 400 /\ orders st' = orders st /\
      exists e, create_order b st = (Thrown e, st', calls) /\
                body resp = OfError (error_message e))).
Proof.
  destruct (post_orders_cases b st)
    as (resp & st' & calls & Hp & [[Hcode Hc] | [Hcode [e Hc]]]);
    exists resp, st', calls; (split; [exact Hp|]).
  - left. split; [exact Hcode|].
    apply create_order_cases in Hc. destruct Hc as (t & w & -> & ->).
    eexists. split; [reflexivity|]. simpl. split.
    + apply obj_get_set_same.
    + intros k Hk. now apply obj_get_set_other.
  - right. split; [exact Hcode|].
    pose proof (post_orders_thrown _ _ _ _ _ Hc) as Hp'.
    rewrite Hp in Hp'. inversion Hp'; subst.
    split; [now apply create_order_cases in Hc|].
    exists e. now split.
Qed.

(* ===================================================================== *)
(** ** Sequences of requests *)
(* ===================================================================== *)

(** What one request does, by its response: a response that returns no
    created id comes with [orders] as it was; one that does is the 201 of
    a creation that wrote its order under that id. *)
Lemma handle_effect (r : request) st resp st' calls :
  handle r st = (Returned resp, st', calls) ->
  (created_id resp = None /\ orders st' = orders st) \/
  exists t uid its,
    resp = respond 201 (OfOrder (new_order t uid its)) /\
    orders st' = obj_set (orders st) (Number_toString t) (new_order t uid its).
Proof.
  destruct r as [| |k|b]; simpl.
  - unfold get_health, ret. intros H. inversion H; subst. now left.
  - unfold get_orders, bind, read_orders, ret. simpl.
    intros H. inversion H; subst. now left.
  - unfold get_order, bind, read_orders. simpl.
    destruct (obj_get (orders st) k); unfold ret; simpl;
      intros H; inversion H; subst; now left.
  - intros H.
    destruct (post_orders_cases b st)
      as (resp' & st'' & calls' & Hp & [[_ Hc] | [Hcode [e Hc]]]);
      rewrite H in Hp; inversion Hp; subst;
      apply create_order_cases in Hc.
    + destruct Hc as (t & w & -> & ->). right.
      now exists t, (get_field b "userId"), (get_field b "items").
    + left. split; [|exact Hc]. unfold created_id.
      destruct (body resp'); try reflexivity. now rewrite Hcode.
Qed.


Lemma serve_keeps_stored (rs : list request) :
  forall st resps st' (k : string) (o : order),
  serve rs st = (resps, st') ->
  obj_get (orders st) k = Ref o ->
  (exists o', obj_get (orders st') k = Ref o') /\
  (~ In k (created_ids resps) -> obj_get (orders st') k = Ref o).
Proof.
  induction rs as [|r rs IH]; intros st resps st' k o H Hk; simpl in H.
  - inversion H; subst. split; [now exists o | auto].
  - destruct (handle_returns r st) as (resp & st1 & calls & Hr).
    rewrite Hr in H. destruct (serve rs st1) as [resps1 st2] eqn:Hs.
    inversion H; subst.
    destruct (handle_effect _ _ _ _ _ Hr)
      as [[Hnone Ho]|(t & uid & its & -> & Ho)].
    + rewrite <- Ho in Hk. destruct (IH _ _ _ _ _ Hs Hk) as [Hex Hsame].
      split; [exact Hex|]. simpl. now rewrite Hnone.
    + destruct (String.eqb_spec k (Number_toString t)) as [->|Hne].
      * assert (Hk1 : obj_get (orders st1) (Number_toString t)
                      = Ref (new_order t uid its))
          by (rewrite Ho; apply obj_get_set_same).
        destruct (IH _ _ _ _ _ Hs Hk1) as [Hex _].
        split; [exact Hex|]. simpl. intros Hnot. exfalso. apply Hnot.
        now left.
      * assert (Hk1 : obj_get (orders st1) k = Ref o)
          by (rewrite Ho, obj_get_set_other; auto).
        destruct (IH _ _ _ _ _ Hs Hk1) as [Hex Hsame].
        split; [exact Hex|]. simpl. intros Hnot. apply Hsame.
        intros Hin. apply Hnot. now right.
Qed.

(** X9: no request removes an order. Whatever requests follow, an id
    that reads as an order keeps reading as one; and it reads as the same
    record unless one of the creations that followed returned that id. *)
Theorem stored_order_outlives_requests (rs : list request) st resps st'
  (k : string) (o : order) :
  serve rs st = (resps, st') ->
  obj_get (orders st) k = Ref o ->
  (exists o', obj_get (orders st') k = Ref o') /\
  (~ In k (created_ids resps) -> obj_get (orders st') k = Ref o).
Proof. apply serve_keeps_stored. Qed.

Lemma created_ids_readable_aux (rs : list request) :
  forall st resps st' (k : string),
  serve rs st = (resps, st') ->
  In k (created_ids resps) ->
  exists o, obj_get (orders st') k = Ref o.
Proof.
  induction rs as [|r rs IH]; intros st resps st' k H Hin; simpl in H.
  - inversion H; subst. destruct Hin.
  - destruct (handle_returns r st) as (resp & st1 & calls & Hr).
    rewrite Hr in H. destruct (serve rs st1) as [resps1 st2] eqn:Hs.
    inversion H; subst. simpl in Hin.
    destruct (handle_effect _ _ _ _ _ Hr)
      as [[Hnone Ho]|(t & uid & its & -> & Ho)].
    + rewrite Hnone in Hin. exact (IH _ _ _ _ Hs Hin).
    + simpl in Hin. destruct Hin as [<-|Hin]; [|exact (IH _ _ _ _ Hs Hin)].
      assert (Hk1 : obj_get (orders st1) (Number_toString t)
                    = Ref (new_order t uid its))
        by (rewrite Ho; apply obj_get_set_same).
      destruct (serve_keeps_stored rs _ _ _ _ _ Hs Hk1)
        as [[o' Ho'] _].
      now exists o'.
Qed.

(** X10: every id a creation returned reads as an order from then on,
    through whatever requests follow. *)
Theorem created_ids_are_readable (rs : list request) st resps st'
  (k : string) :
  serve rs st = (resps, st') ->
  In k (created_ids resps) ->
  exists o, get_order k st' = (Returned (respond 200 (OfOrder o)), st', []).
Proof.
  intros Hs Hin.
  destruct (created_ids_readable_aux rs _ _ _ k Hs Hin) as [o Ho].
  exists o. unfold get_order, bind, read_orders. simpl. now rewrite Ho.
Qed.

(* ===================================================================== *)
(** ** The listing *)
(* ===================================================================== *)

Lemma insert_by_index_perm (n : N) (o : order) (l : list (N * order)) :
  Permutation (map snd (insert_by_index n o l)) (o :: map snd l).
Proof.
  induction l as [|[m p] r IH]; simpl; [reflexivity|].
  destruct (n <=? m)%N; simpl; [reflexivity|].
  rewrite IH. apply perm_swap.
Qed.

(** [Object.values] yields every own property once. *)
Lemma Object_values_perm (os : store) :
  Permutation (Object_values os) (map snd os).
Proof.
  unfold Object_values. induction os as [|[k o] r IH]; simpl; [reflexivity|].
  destruct (array_index k) as [n|].
  - rewrite insert_by_index_perm. simpl. now constructor.
  - rewrite <- Permutation_middle. now constructor.
Qed.

Lemma assoc_keys {A : Type} (k : string) (l : list (string * A)) :
  In k (map fst l) <-> assoc k l <> None.
Proof.
  induction l as [|[k' a] r IH]; simpl; [tauto|].
  destruct (String.eqb_spec k' k) as [->|Hne].
  - split; [discriminate | now left].
  - rewrite <- IH. split; [intros [?|?]; congruence | now right].
Qed.

(** A write under a new key goes last; under a stored key it keeps the
    keys as they are. *)
Lemma obj_set_new (os : store) (k : string) (o : order) :
  assoc k os = None -> obj_set os k o = (os ++ [(k, o)])%list.
Proof.
  induction os as [|[k' o'] r IH]; simpl; [reflexivity|].
  destruct (String.eqb k' k); [discriminate|].
  intros H. now rewrite IH.
Qed.

Lemma obj_set_stored (os : store) (k : string) (o : order) :
  assoc k os <> None -> map fst (obj_set os k o) = map fst os.
Proof.
  induction os as [|[k' o'] r IH]; simpl; [congruence|].
  destruct (String.eqb_spec k' k) as [->|Hne]; [reflexivity|].
  intros H. simpl. now rewrite IH.
Qed.

Lemma obj_set_NoDup (os : store) (k : string) (o : order) :
  NoDup (map fst os) -> NoDup (map fst (obj_set os k o)).
Proof.
  intros H. destruct (assoc k os) as [o0|] eqn:Ha.
  - rewrite obj_set_stored; [exact H | congruence].
  - rewrite obj_set_new by exact Ha. rewrite map_app. simpl.
    apply NoDup_app; [exact H | repeat constructor; intros [] |].
    intros x Hx [<-|[]]. apply assoc_keys in Hx. congruence.
Qed.

(** The keys of [orders] stay pairwise distinct. *)
Lemma serve_NoDup (rs : list request) : forall st resps st',
  serve rs st = (resps, st') ->
  NoDup (map fst (orders st)) -> NoDup (map fst (orders st')).
Proof.
  induction rs as [|r rs IH]; intros st resps st' H Hnd; simpl in H.
  - now inversion H; subst.
  - destruct (handle_returns r st) as (resp & st1 & calls & Hr).
    rewrite Hr in H. destruct (serve rs st1) as [resps1 st2] eqn:Hs.
    inversion H; subst. apply (IH _ _ _ Hs).
    destruct (handle_effect _ _ _ _ _ Hr)
      as [[_ Ho]|(t & uid & its & _ & Ho)]; rewrite Ho;
      [exact Hnd | now apply obj_set_NoDup].
Qed.

(** X11: the listing answers 200 with the stored orders, each exactly
    once, whatever the order of enumeration. *)
Theorem get_orders_lists_each_once st :
  exists l,
    get_orders st = (Returned (respond 200 (OfOrders l)), st, []) /\
    Permutation l (map snd (orders st)) /\
    List.length l = List.length (orders st).
Proof.
  exists (Object_values (orders st)). split; [reflexivity|].
  split; [apply Object_values_perm|].
  rewrite (Permutation_length (Object_values_perm (orders st))).
  apply length_map.
Qed.

(** X12: from the start of the process, when the creations so far
    returned pairwise distinct ids, the listing holds as many orders as
    there were creations answered 201: N accepted creations with N ids
    give N listed orders. *)
Theorem distinct_ids_all_listed (w : World E) (rs : list request) resps st :
  serve rs (start w) = (resps, st) ->
  NoDup (created_ids resps) ->
  List.length (Object_values (orders st)) = List.length (created_ids resps).
Proof.
  intros Hs Hnd.
  rewrite (Permutation_length (Object_values_perm (orders st))).
  rewrite length_map, <- (length_map fst).
  apply Permutation_length, NoDup_Permutation; [|exact Hnd|].
  - apply (serve_NoDup rs _ _ _ Hs). constructor.
  - intros k. rewrite assoc_keys. split.
    + intros Hk. destruct (serve_invariant rs _ _ _ Hs) as [_ Hkeys].
      destruct (Hkeys k Hk) as [H|H]; [simpl in H; congruence | exact H].
    + intros Hin.
      destruct (created_ids_readable_aux rs _ _ _ k Hs Hin) as [o Ho].
      unfold obj_get in Ho. destruct (assoc k (orders st)); [discriminate|].
      destruct (mem_string k Object_prototype); discriminate.
Qed.

(** A clock reading before 1970 or past 2^32 - 2 milliseconds (19 February
    1970) does not print as an array index. *)
Lemma array_index_of_reading (t : Z) :
  (t < 0 \/ 4294967294 < t)%Z -> array_index (Number_toString t) = None.
Proof.
  intros Ht. unfold array_index.
  destruct (NilZero.uint_of_string (Number_toString t)) as [d|];
    [|reflexivity].
  destruct (N.of_uint d <=? 4294967294)%N eqn:Hle; [|reflexivity].
  destruct (String.eqb_spec (Number_toString (Z.of_N (N.of_uint d)))
              (Number_toString t)) as [Heq|]; [|reflexivity].
  apply Number_toString_inj in Heq. apply N.leb_le in Hle. lia.
Qed.

(** With no array index among the keys, [Object.values] follows the order
    of creation. *)
Lemma Object_values_named (os : store) :
  (forall k o, In (k, o) os -> array_index k = None) ->
  Object_values os = map snd os.
Proof.
  intros H.
  assert (Hboth : index_properties os = [] /\ named_properties os = map snd os).
  { induction os as [|[k o] r IH]; simpl; [now split|].
    rewrite (H k o) by now left.
    destruct IH as [Hi Hn];
      [intros k' o' Hin; apply (H k' o'); now right|].
    split; [exact Hi | now rewrite Hn]. }
  unfold Object_values. destruct Hboth as [-> ->]. reflexivity.
Qed.

(** X13: with every stored id printed from a clock reading past 2^32 - 2
    milliseconds (any date after 19 February 1970), an accepted creation
    whose id was not stored yet adds its order at the end of the listing,
    and the orders listed before stay where they were. *)
Theorem fresh_order_listed_last (b : value) st resp st' calls (o : order) :
  (forall k o0, In (k, o0) (orders st) ->
     exists t, k = Number_toString t /\ (4294967294 < t)%Z) ->
  post_orders b st = (Returned resp, st', calls) ->
  body resp = OfOrder o ->
  (exists t, id o = Number_toString t /\ (4294967294 < t)%Z) ->
  obj_get (orders st) (id o) = Undefined ->
  Object_values (orders st') = (Object_values (orders st) ++ [o])%list.
Proof.
  intros Hkeys Hp Hbody (t & Hid & Ht) Hfresh.
  assert (Hnamed : forall k o0, In (k, o0) (orders st) -> array_index k = None).
  { intros k o0 Hin. destruct (Hkeys k o0 Hin) as (t0 & -> & Ht0).
    apply array_index_of_reading. now right. }
  assert (Hnone : assoc (id o) (orders st) = None).
  { unfold obj_get in Hfresh. now destruct (assoc (id o) (orders st)). }
  destruct (handle_effect (POST_orders b) _ _ _ _ Hp)
    as [[Hc _]|(t' & uid & its & -> & Ho)].
  - unfold created_id in Hc. rewrite Hbody in Hc.
    destruct (post_orders_cases b st)
      as (resp' & st'' & calls' & Hp' & [[Hcode _] | [Hcode [e He]]]);
      rewrite Hp in Hp'; inversion Hp'; subst.
    + now rewrite Hcode in Hc.
    + pose proof (post_orders_thrown _ _ _ _ _ He) as Hp''.
      rewrite Hp in Hp''. inversion Hp''; subst. discriminate.
  - simpl in Hbody. inversion Hbody; subst o. simpl in *.
    rewrite Ho, (obj_set_new _ _ _ Hnone).
    rewrite (Object_values_named (orders st) Hnamed).
    rewrite Object_values_named.
    + now rewrite map_app.
    + intros k o0 Hin. apply in_app_or in Hin. destruct Hin as [Hin|[Heq|[]]].
      * now apply (Hnamed k o0).
      * inversion Heq; subst. rewrite Hid.
        apply array_index_of_reading. now right.
Qed.

(* ===================================================================== *)
(** ** Bodies of any shape *)
(* ===================================================================== *)

Lemma check_item_resolved (x : value) (url : string) st w :
  item_url x = Some url ->
  axios_get E url (world st) = (Resolved, w) ->
  check_item x st = (Returned tt, State (orders st) w, [url]).
Proof.
  unfold item_url, check_item, read.
  destruct (member x "productId") as [e|p]; [discriminate|].
  rewrite bind_ret. unfold template.
  destruct (ToString p) as [u|]; [|discriminate].
  simpl. intros [= <-] Hg. rewrite bind_ret.
  now apply await_get_resolved.
Qed.


(** The loop that meets an item it cannot read, past items whose calls
    resolved: it throws there, with no call for that item. *)
Lemma for_each_null (pre : list value) (post : list value) :
  forall urls st w',
  map item_url pre = map Some urls ->
  all_resolve urls (world st) = Some w' ->
  for_each (pre ++ VNull :: post) check_item st
  = (Thrown (TypeError (ReadOfNullish VNull "productId")),
     State (orders st) w', urls).
Proof.
  induction pre as [|x l IH]; intros [|url urls] st w' Hu H; simpl in *;
    try discriminate.
  - inversion H; subst. destruct st. reflexivity.
  - inversion Hu as [[Hx Hl]].
    destruct (axios_get E url (world st)) as [[|msg] w1] eqn:Hget;
      [|discriminate].
    rewrite (bind_returned _ _ st tt (State (orders st) w1) [url]
               (check_item_resolved x url st w1 Hx Hget)).
    now rewrite (IH urls (State (orders st) w1) w' Hl H).
Qed.




(** X16: a [null] among the items stops the loop where it stands: the
    checks of the items before it are made, none for it or for the items
    after it, nothing is stored, and the answer is 400 with the message of
    the [TypeError] of reading [productId] of [null]. *)
Theorem null_item_rejected (b : value) (u : string) (pre post : list value)
  (urls : list string) st w1 :
  b <> VUndefined -> b <> VNull ->
  ToString (get_field b "userId") = Some u ->
  iterate (get_field b "items") = Some (pre ++ VNull :: post)%list ->
  map item_url pre = map Some urls ->
  all_resolve (user_url u :: urls) (world st) = Some w1 ->
  post_orders b st
  = (Returned
       (respond 400 (OfError (message_of E (ReadOfNullish VNull "productId")))),
     State (orders st) w1, user_url u :: urls).
Proof.
  intros H1 H2 Hu Hit Hurls H. simpl in H.
  destruct (axios_get E (user_url u) (world st)) as [[|msg] w0] eqn:Hget;
    [|discriminate].
  apply (post_orders_thrown b st
           (TypeError (ReadOfNullish VNull "productId"))).
  unfold create_order.
  rewrite (destructure_object b H1 H2), bind_ret.
  unfold template. rewrite Hu, bind_ret.
  rewrite (bind_returned _ _ st tt (State (orders st) w0) [user_url u]
             (await_get_resolved _ _ _ Hget)).
  unfold for_of. rewrite Hit.
  rewrite (bind_thrown _ _ _ _ _ _
             (for_each_null pre post urls (State (orders st) w0) w1 Hurls H)).
  reflexivity.
Qed.

End OrderService.

Arguments orders {E} s.
Arguments world {E} s.

(* ===================================================================== *)
(** ** The inventory service *)
(* ===================================================================== *)

Lemma slice_from_app (pre s : string) :
  slice_from (String.length pre) (pre ++ s) = Some s.
Proof. induction pre as [|c pre IH]; simpl; [now destruct s | exact IH]. Qed.

Lemma slice_from_none (n : nat) : forall s,
  slice_from n s = None <-> String.length s < n.
Proof.
  induction n as [|n IH]; intros s; simpl.
  - split; [discriminate | lia].
  - destruct s as [|c s]; simpl.
    + split; [lia | reflexivity].
    + rewrite IH. lia.
Qed.

Lemma assoc_map_assign_same (m : inventory_map) (k : string) (p : Product) :
  assoc k (map_assign m k p) = Some p.
Proof.
  induction m as [|[k' p'] r IH]; simpl.
  - now rewrite String.eqb_refl.
  - destruct (String.eqb k' k) eqn:Hk; simpl.
    + now rewrite String.eqb_refl.
    + now rewrite Hk.
Qed.

Lemma assoc_map_assign_other (m : inventory_map) (k k' : string)
  (p : Product) :
  k' <> k -> assoc k' (map_assign m k p) = assoc k' m.
Proof.
  intros Hne. induction m as [|[k0 p0] r IH]; simpl.
  - destruct (String.eqb_spec k k'); congruence.
  - destruct (String.eqb_spec k0 k) as [->|Hk]; simpl.
    + destruct (String.eqb_spec k k'); congruence.
    + now rewrite IH.
Qed.

Lemma assoc_map_delete_same (m : inventory_map) (k : string) :
  assoc k (map_delete m k) = None.
Proof.
  unfold map_delete. induction m as [|[k' p'] r IH]; simpl; [reflexivity|].
  destruct (String.eqb k' k) eqn:Hk; simpl; [exact IH|].
  now rewrite Hk.
Qed.

Lemma map_delete_absent (m : inventory_map) (k : string) :
  assoc k m = None -> map_delete m k = m.
Proof.
  unfold map_delete. induction m as [|[k' p'] r IH]; simpl; [reflexivity|].
  destruct (String.eqb k' k); simpl; [discriminate|].
  intros H. now rewrite IH.
Qed.

Lemma map_assign_new (m : inventory_map) (k : string) (p : Product) :
  assoc k m = None -> map_assign m k p = (m ++ [(k, p)])%list.
Proof.
  induction m as [|[k' p'] r IH]; simpl; [reflexivity|].
  destruct (String.eqb k' k); [discriminate|].
  intros H. now rewrite IH.
Qed.

Lemma append_loop (l : list (string * Product)) : forall acc,
  fold_left (fun products kp => (products ++ [snd kp])%list) l acc
  = (acc ++ map snd l)%list.
Proof.
  induction l as [|kp l IH]; intros acc; simpl.
  - now rewrite app_nil_r.
  - now rewrite IH, <- app_assoc.
Qed.

Lemma string_app_nil (s : string) : s ++ "" = s.
Proof. induction s as [|c s IH]; simpl; [reflexivity | now rewrite IH]. Qed.

Lemma getProductHandler_slice (pre id : string) (inventory : inventory_map) :
  String.length pre = 18 ->
  getProductHandler (pre ++ id) inventory = Some (product_answer inventory id).
Proof.
  intros Hlen. unfold getProductHandler, product_answer. simpl String.length.
  rewrite <- Hlen, slice_from_app. now destruct (assoc id inventory).
Qed.

(** X17: the product handler reads the product id off the path by
    position alone: whatever the first 18 bytes are, it looks up the rest,
    and answers 200 with the product stored under it or else 404 with
    [Product not found]. In particular it never panics on a path that
    starts with [/api/v1/inventory/]. *)
Theorem getProductHandler_by_id (pre id : string) (inventory : inventory_map) :
  String.length pre = String.length "/api/v1/inventory/" ->
  getProductHandler (pre ++ id) inventory
  = Some match assoc id inventory with
         | Some product => Written 200 "application/json" (ProductDoc product)
         | None =>
             Written 404 "application/json" (ErrorDoc "Product not found")
         end.
Proof. apply getProductHandler_slice. Qed.

(** X18: the product handler panics exactly on the paths shorter than the
    18 bytes it slices off; a path of exactly 18 bytes is looked up as the
    empty id. *)
Theorem getProductHandler_panics_iff_short (path : string)
  (inventory : inventory_map) :
  (getProductHandler path inventory = None <-> String.length path < 18) /\
  (String.length path = 18 ->
   getProductHandler path inventory = Some (product_answer inventory "")).
Proof.
  split.
  - unfold getProductHandler. simpl String.length.
    rewrite <- (slice_from_none 18 path).
    destruct (slice_from 18 path) as [productID|]; [|now split].
    destruct (assoc productID inventory); split; discriminate.
  - intros Hlen. rewrite <- (string_app_nil path) at 1.
    now apply getProductHandler_slice.
Qed.

(** X19: the inventory listing answers 200 with every product of the
    inventory exactly once, in whatever order the loop met them: as many
    products as the map has entries, none for an empty map. *)
Theorem getInventoryHandler_lists_each_once (inventory : inventory_map)
  (range : inventory_map -> list (string * Product)) :
  Permutation (range inventory) inventory ->
  exists products,
    getInventoryHandler inventory range
    = Written 200 "application/json" (ProductsDoc products) /\
    Permutation products (map snd inventory) /\
    List.length products = List.length inventory /\
    (inventory = [] -> products = []).
Proof.
  intros Hperm. exists (map snd (range inventory)).
  unfold getInventoryHandler. rewrite append_loop. simpl.
  split; [reflexivity|]. split; [now apply Permutation_map|].
  split.
  - rewrite length_map. now apply Permutation_length.
  - intros ->. apply Permutation_sym, Permutation_nil in Hperm.
    now rewrite Hperm.
Qed.

(** X20: the inventory [main] sets up knows two products: the product
    handler answers 200 with the widget for [prod-1], 200 with the gadget
    for [prod-2], and 404 for every other id. *)
Theorem main_inventory_knows_two_products (id : string) :
  getProductHandler ("/api/v1/inventory/" ++ id) main_inventory
  = Some (if String.eqb id "prod-1"
          then Written 200 "application/json"
                 (ProductDoc (mkProduct "prod-1" "Widget" 100 29.99%float))
          else if String.eqb id "prod-2"
          then Written 200 "application/json"
                 (ProductDoc (mkProduct "prod-2" "Gadget" 50 49.99%float))
          else Written 404 "application/json" (ErrorDoc "Product not found")).
Proof.
  rewrite getProductHandler_slice by reflexivity.
  destruct (String.eqb_spec id "prod-1") as [->|H1]; [reflexivity|].
  destruct (String.eqb_spec id "prod-2") as [->|H2]; [reflexivity|].
  unfold product_answer.
  change main_inventory
    with [("prod-1", mkProduct "prod-1" "Widget" 100 29.99%float);
          ("prod-2", mkProduct "prod-2" "Gadget" 50 49.99%float)].
  cbn [assoc].
  destruct (String.eqb_spec "prod-1" id); [congruence|].
  destruct (String.eqb_spec "prod-2" id); [congruence|].
  reflexivity.
Qed.

(** X21: a product assigned under a key is what the product handler
    answers for that key, whatever the inventory held; the other keys
    answer as before; once the key is deleted the handler answers 404. *)
Theorem assigned_product_is_served (inventory : inventory_map) (k : string)
  (p : Product) :
  getProductHandler ("/api/v1/inventory/" ++ k) (map_assign inventory k p)
  = Some (Written 200 "application/json" (ProductDoc p)) /\
  (forall k', k' <> k ->
     getProductHandler ("/api/v1/inventory/" ++ k') (map_assign inventory k p)
     = getProductHandler ("/api/v1/inventory/" ++ k') inventory) /\
  getProductHandler ("/api/v1/inventory/" ++ k)
    (map_delete (map_assign inventory k p) k)
  = Some (Written 404 "application/json" (ErrorDoc "Product not found")).
Proof.
  repeat split.
  - rewrite getProductHandler_slice by reflexivity.
    unfold product_answer. now rewrite assoc_map_assign_same.
  - intros k' Hne. rewrite !getProductHandler_slice by reflexivity.
    unfold product_answer. now rewrite assoc_map_assign_other.
  - rewrite getProductHandler_slice by reflexivity.
    unfold product_answer. now rewrite assoc_map_delete_same.
Qed.

(** X22: assigning a product under a key the inventory does not hold and
    deleting that key again leaves the inventory as it was, entry for
    entry. *)
Theorem assign_then_delete_restores (inventory : inventory_map) (k : string)
  (p : Product) :
  assoc k inventory = None ->
  map_delete (map_assign inventory k p) k = inventory.
Proof.
  intros H. rewrite (map_assign_new _ _ _ H).
  unfold map_delete. rewrite filter_app. simpl.
  rewrite String.eqb_refl. simpl. rewrite app_nil_r.
  now apply map_delete_absent.
Qed.

(* ===================================================================== *)
(** ** The theorems at work, on the scripted environment *)
(* ===================================================================== *)

Lemma create_calls_user_then_items_witness :
  all_resolve mock_env
    (user_url mock_env "user-1" :: item_urls mock_env two_items)
    (world (start mock_env all_found)) = Some all_found /\
  exists resp st' calls,
    post_orders mock_env (request_body "user-1" two_items)
      (start mock_env all_found) = (Returned resp, st', calls) /\
    code resp = 201 /\
    calls = user_url mock_env "user-1"
            :: map (fun i => product_url mock_env (productId i)) two_items /\
    List.length calls = 1 + List.length two_items.
Proof.
  split; [reflexivity|].
  apply (create_calls_user_then_items mock_env "user-1" two_items
           (start mock_env all_found) all_found).
  reflexivity.
Defined.

Lemma user_check_failure_witness :
  axios_get mock_env (user_url mock_env "ghost") user_missing
  = (Rejected "User not found", all_found) /\
  post_orders mock_env (request_body "ghost" two_items)
    (start mock_env user_missing)
  = (Returned (respond 400 (OfError "User not found")),
     State mock_env [] all_found,
     ["http://user-service:5000/api/v1/users/ghost"]).
Proof.
  split; [reflexivity|].
  apply (user_check_failure mock_env (request_body "ghost" two_items) "ghost"
           (start mock_env user_missing) "User not found" all_found);
    [discriminate | discriminate | reflexivity | reflexivity].
Defined.

Lemma item_check_failure_witness :
  exists st',
    post_orders mock_env
      (request_body "user-1"
         ([LineItem "prod-1" 2] ++ LineItem "invalid-product" 1
                                :: [LineItem "prod-3" 1]))
      (start mock_env second_product_missing)
    = (Returned (respond 400 (OfError "Product not found")), st',
       ["http://user-service:5000/api/v1/users/user-1";
        "http://inventory-service:8080/api/v1/inventory/prod-1";
        "http://inventory-service:8080/api/v1/inventory/invalid-product"])
    /\ orders st' = []
    /\ (forall k, fst (fst (get_order mock_env k st'))
                  = fst (fst (get_order mock_env k
                                (start mock_env second_product_missing))))
    /\ fst (fst (get_orders mock_env st'))
       = fst (fst (get_orders mock_env (start mock_env second_product_missing))).
Proof.
  apply (item_check_failure mock_env "user-1" [LineItem "prod-1" 2]
           (LineItem "invalid-product" 1) [LineItem "prod-3" 1]
           (start mock_env second_product_missing)
           (Mock [Rejected "Product not found"] 1700000000000 1)
           "Product not found" all_found);
    reflexivity.
Defined.

Lemma get_after_create_witness :
  exists o,
    body (respond 201 (OfOrder first_order)) = OfOrder o /\
    get_order mock_env (id o)
      (State mock_env [("1700000000000", first_order)]
         (Mock [] 1700000000001 1))
    = (Returned (respond 200 (OfOrder o)),
       State mock_env [("1700000000000", first_order)]
         (Mock [] 1700000000001 1), []).
Proof.
  apply (get_after_create mock_env first_request (start mock_env all_found)
           (respond 201 (OfOrder first_order))
           (State mock_env [("1700000000000", first_order)]
              (Mock [] 1700000000001 1))
           [user_url mock_env "user-1"; product_url mock_env "prod-1"]);
    reflexivity.
Defined.

Lemma create_with_no_items_witness :
  exists o st',
    post_orders mock_env (request_body "user-1" []) (start mock_env all_found)
    = (Returned (respond 201 (OfOrder o)), st',
       ["http://user-service:5000/api/v1/users/user-1"]) /\
    obj_get (orders st') (id o) = Ref o /\
    userId o = VStr "user-1" /\ items o = VArr [] /\ status o = "pending".
Proof.
  apply (create_with_no_items mock_env "user-1" (start mock_env all_found)
           all_found).
  reflexivity.
Defined.

Lemma items_not_iterable_witness :
  iterate (get_field (VObj [("userId", VStr "user-1")]) "items") = None /\
  exists e st' calls,
    create_order mock_env (VObj [("userId", VStr "user-1")])
      (start mock_env all_found) = (Thrown e, st', calls) /\
    post_orders mock_env (VObj [("userId", VStr "user-1")])
      (start mock_env all_found)
    = (Returned (respond 400 (OfError (error_message mock_env e))), st', calls)
    /\ orders st' = []
    /\ e = TypeError (NotIterable VUndefined)
    /\ calls = ["http://user-service:5000/api/v1/users/user-1"].
Proof.
  split; [reflexivity|].
  destruct (items_not_iterable mock_env (VObj [("userId", VStr "user-1")])
              (start mock_env all_found) eq_refl)
    as (e & st' & calls & H1 & H2 & H3 & H4).
  destruct (H4 "user-1" all_found) as [He Hc];
    [discriminate | discriminate | reflexivity | reflexivity |].
  exists e, st', calls. repeat split; assumption.
Defined.

(** C1, at two creations within one millisecond: both are answered 201,
    and the id given to the second is the id under which the first order
    is stored at that moment, neither fresh nor unique. *)
Theorem second_create_takes_id_in_use :
  post_orders mock_env first_request (start mock_env same_millisecond)
  = (Returned (respond 201 (OfOrder first_order)),
     State mock_env [("1700000000000", first_order)] same_millisecond,
     [user_url mock_env "user-1"; product_url mock_env "prod-1"]) /\
  post_orders mock_env second_request
    (State mock_env [("1700000000000", first_order)] same_millisecond)
  = (Returned (respond 201 (OfOrder second_order)),
     State mock_env [("1700000000000", second_order)] same_millisecond,
     [user_url mock_env "user-2"; product_url mock_env "prod-2"]) /\
  id second_order = id first_order /\
  obj_get [("1700000000000", first_order)] (id second_order)
  = Ref first_order.
Proof. repeat split. Qed.

(** C2, at two creations within one millisecond, from different callers:
    the two ids are the same, and the second creation replaces the record
    of the first; the listing that follows holds the second order only. *)
Theorem same_millisecond_creates_collide :
  serve mock_env
    [POST_orders first_request; POST_orders second_request; GET_orders]
    (start mock_env same_millisecond)
  = ([respond 201 (OfOrder first_order);
      respond 201 (OfOrder second_order);
      respond 200 (OfOrders [second_order])],
     State mock_env [("1700000000000", second_order)] same_millisecond) /\
  id first_order = id second_order /\
  userId first_order <> userId second_order.
Proof. repeat split. discriminate. Qed.

(** C9, at an order read back before and after a later creation within
    the same millisecond: the record read under its id is first the order
    as created, then the later request's order. *)
Theorem later_create_replaces_stored_order :
  serve mock_env
    [POST_orders first_request; GET_order "1700000000000";
     POST_orders second_request; GET_order "1700000000000"]
    (start mock_env same_millisecond)
  = ([respond 201 (OfOrder first_order);
      respond 200 (OfOrder first_order);
      respond 201 (OfOrder second_order);
      respond 200 (OfOrder second_order)],
     State mock_env [("1700000000000", second_order)] same_millisecond) /\
  first_order <> second_order.
Proof. split; [reflexivity | discriminate]. Qed.

Lemma create_stores_pending_order_witness :
  exists o st' calls,
    post_orders mock_env (request_body "user-1" two_items)
      (start mock_env all_found)
    = (Returned (respond 201 (OfOrder o)), st', calls) /\
    status o = "pending" /\ userId o = VStr "user-1" /\
    items o = VArr (map item_value two_items) /\
    id o = "1700000000000" /\
    obj_get (orders st') (id o) = Ref o.
Proof.
  apply (create_stores_pending_order mock_env "user-1" two_items
           (start mock_env all_found) all_found).
  reflexivity.
Defined.

Lemma create_at_other_reading_keeps_witness :
  obj_get
    (orders (snd (fst (post_orders mock_env second_request
                         (State mock_env [("1700000000000", first_order)]
                            (Mock [] 1700000000001 1))))))
    (Number_toString 1700000000000)
  = Ref first_order.
Proof.
  apply (create_at_other_reading_keeps mock_env second_request
           (State mock_env [("1700000000000", first_order)]
              (Mock [] 1700000000001 1))
           (respond 201
              (OfOrder (new_order 1700000000001 (VStr "user-2")
                          (VArr [item_value (LineItem "prod-2" 3)]))))
           (State mock_env
              [("1700000000000", first_order);
               ("1700000000001",
                new_order 1700000000001 (VStr "user-2")
                  (VArr [item_value (LineItem "prod-2" 3)]))]
              (Mock [] 1700000000002 1))
           [user_url mock_env "user-2"; product_url mock_env "prod-2"]
           1700000000000);
    [reflexivity | intros o [= <-]; discriminate].
Defined.

Lemma get_unknown_id_not_found_witness :
  get_order mock_env "does-not-exist"
    (State mock_env [("1700000000000", first_order)]
       (Mock [] 1700000000001 1))
  = (Returned (respond 404 (OfError "Order not found")),
     State mock_env [("1700000000000", first_order)]
       (Mock [] 1700000000001 1), []).
Proof.
  apply (get_unknown_id_not_found mock_env all_found
           [POST_orders first_request]
           [respond 201 (OfOrder first_order)]);
    [reflexivity | | reflexivity].
  intros [H|[]]. discriminate.
Defined.

Lemma stored_orders_stay_pending_witness :
  id first_order = "1700000000000" /\ status first_order = "pending" /\
  snd (fst (get_order mock_env "1700000000000"
              (State mock_env [("1700000000000", first_order)]
                 (Mock [] 1700000000001 1))))
  = State mock_env [("1700000000000", first_order)] (Mock [] 1700000000001 1)
  /\
  snd (fst (get_orders mock_env
              (State mock_env [("1700000000000", first_order)]
                 (Mock [] 1700000000001 1))))
  = State mock_env [("1700000000000", first_order)] (Mock [] 1700000000001 1)
  /\
  snd (fst (get_health mock_env
              (State mock_env [("1700000000000", first_order)]
                 (Mock [] 1700000000001 1))))
  = State mock_env [("1700000000000", first_order)] (Mock [] 1700000000001 1).
Proof.
  apply (stored_orders_stay_pending mock_env all_found
           [POST_orders first_request; GET_orders]
           [respond 201 (OfOrder first_order);
            respond 200 (OfOrders [first_order])]);
    reflexivity.
Defined.


Lemma stored_order_outlives_requests_witness :
  (exists o',
     obj_get
       (orders (snd (serve mock_env [POST_orders second_request; GET_orders]
                       (State mock_env [("1700000000000", first_order)]
                          (Mock [] 1700000000001 1)))))
       "1700000000000" = Ref o') /\
  (~ In "1700000000000"
       (created_ids
          (fst (serve mock_env [POST_orders second_request; GET_orders]
                  (State mock_env [("1700000000000", first_order)]
                     (Mock [] 1700000000001 1))))) ->
   obj_get
     (orders (snd (serve mock_env [POST_orders second_request; GET_orders]
                     (State mock_env [("1700000000000", first_order)]
                        (Mock [] 1700000000001 1)))))
     "1700000000000" = Ref first_order).
Proof.
  apply (stored_order_outlives_requests mock_env
           [POST_orders second_request; GET_orders]
           (State mock_env [("1700000000000", first_order)]
              (Mock [] 1700000000001 1)));
    [apply surjective_pairing | reflexivity].
Defined.

Lemma created_ids_are_readable_witness :
  exists o,
    get_order mock_env "1700000000000"
      (snd (serve mock_env [POST_orders first_request; GET_orders]
              (start mock_env all_found)))
    = (Returned (respond 200 (OfOrder o)),
       snd (serve mock_env [POST_orders first_request; GET_orders]
              (start mock_env all_found)), []).
Proof.
  apply (created_ids_are_readable mock_env
           [POST_orders first_request; GET_orders]
           (start mock_env all_found)
           (fst (serve mock_env [POST_orders first_request; GET_orders]
                   (start mock_env all_found))));
    [apply surjective_pairing | simpl; now left].
Defined.

Lemma distinct_ids_all_listed_witness :
  List.length
    (Object_values
       (orders (snd (serve mock_env
                       [POST_orders first_request; POST_orders second_request]
                       (start mock_env all_found)))))
  = 2.
Proof.
  apply (distinct_ids_all_listed mock_env all_found
           [POST_orders first_request; POST_orders second_request]
           (fst (serve mock_env
                   [POST_orders first_request; POST_orders second_request]
                   (start mock_env all_found))));
    [apply surjective_pairing|].
  simpl. repeat constructor; simpl; [intros [H|[]]; discriminate | tauto].
Defined.

Lemma fresh_order_listed_last_witness :
  Object_values
    [("1700000000000", first_order);
     ("1700000000001",
      new_order 1700000000001 (VStr "user-2")
        (VArr [item_value (LineItem "prod-2" 3)]))]
  = (Object_values [("1700000000000", first_order)]
       ++ [new_order 1700000000001 (VStr "user-2")
             (VArr [item_value (LineItem "prod-2" 3)])])%list.
Proof.
  apply (fresh_order_listed_last mock_env second_request
           (State mock_env [("1700000000000", first_order)]
              (Mock [] 1700000000001 1))
           (respond 201
              (OfOrder (new_order 1700000000001 (VStr "user-2")
                          (VArr [item_value (LineItem "prod-2" 3)]))))
           (State mock_env
              [("1700000000000", first_order);
               ("1700000000001",
                new_order 1700000000001 (VStr "user-2")
                  (VArr [item_value (LineItem "prod-2" 3)]))]
              (Mock [] 1700000000002 1))
           [user_url mock_env "user-2"; product_url mock_env "prod-2"]).
  - intros k o0 [Heq|[]]. inversion Heq; subst.
    exists 1700000000000%Z. split; [reflexivity | lia].
  - reflexivity.
  - reflexivity.
  - exists 1700000000001%Z. split; [reflexivity | lia].
  - reflexivity.
Defined.



Lemma null_item_rejected_witness :
  post_orders mock_env
    (VObj [("userId", VStr "user-1");
           ("items", VArr [item_value (LineItem "prod-1" 2); VNull;
                           item_value (LineItem "prod-2" 1)])])
    (start mock_env all_found)
  = (Returned
       (respond 400
          (OfError "Cannot read properties of null (reading 'productId')")),
     State mock_env [] all_found,
     ["http://user-service:5000/api/v1/users/user-1";
      "http://inventory-service:8080/api/v1/inventory/prod-1"]).
Proof.
  apply (null_item_rejected mock_env
           (VObj [("userId", VStr "user-1");
                  ("items", VArr [item_value (LineItem "prod-1" 2); VNull;
                                  item_value (LineItem "prod-2" 1)])])
           "user-1" [item_value (LineItem "prod-1" 2)]
           [item_value (LineItem "prod-2" 1)]
           ["http://inventory-service:8080/api/v1/inventory/prod-1"]
           (start mock_env all_found) all_found);
    try discriminate; reflexivity.
Defined.

Lemma getProductHandler_by_id_witness :
  getProductHandler "/api/v1/inventory/prod-2" main_inventory
  = Some (Written 200 "application/json"
            (ProductDoc (mkProduct "prod-2" "Gadget" 50 49.99%float))) /\
  getProductHandler "/api/v1/inventory/test-2" main_inventory
  = Some (Written 404 "application/json" (ErrorDoc "Product not found")).
Proof.
  split.
  - apply (getProductHandler_by_id "/api/v1/inventory/" "prod-2"
             main_inventory).
    reflexivity.
  - apply (getProductHandler_by_id "/api/v1/inventory/" "test-2"
             main_inventory).
    reflexivity.
Defined.

Lemma getInventoryHandler_lists_each_once_witness :
  exists products,
    getInventoryHandler main_inventory (@rev (string * Product))
    = Written 200 "application/json" (ProductsDoc products) /\
    Permutation products (map snd main_inventory) /\
    List.length products = List.length main_inventory /\
    (main_inventory = [] -> products = []).
Proof.
  apply (getInventoryHandler_lists_each_once main_inventory
           (@rev (string * Product))).
  apply Permutation_sym, Permutation_rev.
Defined.

Lemma assign_then_delete_restores_witness :
  map_delete
    (map_assign main_inventory "test-2"
       (mkProduct "test-2" "Widget" 100 29.99%float))
    "test-2"
  = main_inventory.
Proof.
  apply (assign_then_delete_restores main_inventory "test-2"
           (mkProduct "test-2" "Widget" 100 29.99%float)).
  reflexivity.
Defined.
